(** * Client/service contract of the AI meeting assistant

    Shallow embedding of [src/app.py] (the two HTTP clients
    [get_all_insights_from_modal] and [ask_question_on_transcript]), of the
    two services [src/modal_insights_app.py] and [src/modal_qna_app.py]
    (text extraction [_generate_text_from_prompt], the processors
    [process_transcript_insights] and [answer_question_on_transcript], the
    FastAPI endpoints [get_insights] and [ask_question]) and of the v6.4
    processor and endpoint of [src/modal_logic.py].

    Python strings are Rocq [string]s (characters read as code points
    0..255), a decoded JSON document is a [json] value (integers only; floats
    are not modelled), a Python exception is a [py_exn] whose [str] is its
    text, and the clients are programs of a small free monad [io] whose
    effects are [print] and [requests.post].  The language model and Modal's
    [.remote()] are parameters. *)

From Stdlib Require Import String Ascii List ZArith Bool Lia.
Import ListNotations.
Open Scope string_scope.
Open Scope Z_scope.

(* ------------------------------------------------------------------ *)
(** ** Python string helpers *)

Definition char_of (n : nat) : string := String (ascii_of_nat n) EmptyString.

(** A double quote and a newline, used to spell the source's literals. *)
Definition dq : string := char_of 34.
Definition nl : string := char_of 10.

(** [str.isspace] on a single character (code points 0..255). *)
Definition py_isspace (c : ascii) : bool :=
  let n := nat_of_ascii c in
  ((9 <=? n) && (n <=? 13))%nat || ((28 <=? n) && (n <=? 32))%nat
  || (n =? 133)%nat || (n =? 160)%nat.

Fixpoint lstrip_list (l : list ascii) : list ascii :=
  match l with
  | [] => []
  | c :: l' => if py_isspace c then lstrip_list l' else l
  end.

(** [str.strip()] with no argument. *)
Definition py_strip (s : string) : string :=
  let l := lstrip_list (list_ascii_of_string s) in
  string_of_list_ascii (rev (lstrip_list (rev l))).

(** [str.startswith(p)]. *)
Definition startswith (s p : string) : bool := String.prefix p s.

(** [sep.join(items)]. *)
Fixpoint py_join (sep : string) (items : list string) : string :=
  match items with
  | [] => ""
  | [x] => x
  | x :: rest => x ++ sep ++ py_join sep rest
  end.

(** Decimal text of a non-negative integer, as [str(n)]. *)
Fixpoint digits_aux (fuel : nat) (n : Z) (acc : string) : string :=
  match fuel with
  | O => acc
  | S f =>
      let acc' := String (ascii_of_nat (48 + Z.to_nat (n mod 10))) acc in
      if n <? 10 then acc' else digits_aux f (n / 10) acc'
  end.

Definition py_str_int (n : Z) : string :=
  if n <? 0 then "-" ++ digits_aux 64 (- n) ""
  else digits_aux 64 n "".

(* ------------------------------------------------------------------ *)
(** ** Decoded JSON values and their Python behaviour *)

#[local] Set Warnings "-register-all".

Inductive json : Type :=
| JNull
| JBool (b : bool)
| JNum (n : Z)
| JStr (s : string)
| JArr (l : list json)
| JObj (fields : list (string * json)).

(** [d.get(k)] on the dict [json.loads] builds from an object: fields are
    assigned in order, so a later duplicate key wins. *)
Definition dict_lookup {A} (k : string) (d : list (string * A)) : option A :=
  fold_left (fun acc kv => if String.eqb k (fst kv) then Some (snd kv) else acc)
            d None.

Definition dict_get {A} (d : list (string * A)) (k : string) (default : A) : A :=
  match dict_lookup k d with Some v => v | None => default end.

(** [d[k] = v] on a dict: an existing key keeps its position. *)
Fixpoint dict_set {A} (d : list (string * A)) (k : string) (v : A)
  : list (string * A) :=
  match d with
  | [] => [(k, v)]
  | (k', v') :: rest =>
      if String.eqb k k' then (k', v) :: rest else (k', v') :: dict_set rest k v
  end.

(** Python truthiness. *)
Definition py_truthy (v : json) : bool :=
  match v with
  | JNull => false
  | JBool b => b
  | JNum n => negb (n =? 0)
  | JStr s => negb (String.eqb s "")
  | JArr l => negb (List.length l =? 0)%nat
  | JObj f => negb (List.length f =? 0)%nat
  end.

(** [str(v)]; nested strings are shown in single quotes (escaping inside
    a repr is not modelled). *)
Fixpoint py_repr (v : json) : string :=
  match v with
  | JNull => "None"
  | JBool true => "True"
  | JBool false => "False"
  | JNum n => py_str_int n
  | JStr s => "'" ++ s ++ "'"
  | JArr l => "[" ++ py_join ", " (map py_repr l) ++ "]"
  | JObj f =>
      "{" ++ py_join ", " (map (fun kv => "'" ++ fst kv ++ "': " ++ py_repr (snd kv)) f)
      ++ "}"
  end.

Definition py_str (v : json) : string :=
  match v with
  | JStr s => s
  | _ => py_repr v
  end.

(** [x == "error"] for a decoded value [x]: only a [str] can be equal. *)
Definition is_str (s : string) (v : json) : bool :=
  match v with JStr s' => String.eqb s s' | _ => false end.

Fixpoint substring_of (p s : string) : bool :=
  String.prefix p s ||
  match s with EmptyString => false | String _ s' => substring_of p s' end.

(* ------------------------------------------------------------------ *)
(** ** Exceptions and the exception monad *)

(** The exception classes the clients can meet; [str(e)] is the text. *)
Inductive py_exn : Type :=
| ReadTimeout (text : string)       (* requests.exceptions.Timeout *)
| ConnectionError (text : string)   (* requests.exceptions.ConnectionError *)
| HTTPError (text : string)         (* raised by raise_for_status *)
| JSONDecodeError (text : string)   (* json / requests JSONDecodeError *)
| TypeError (text : string)
| AttributeError (text : string)
| OtherError (cls text : string).

Definition exn_str (e : py_exn) : string :=
  match e with
  | ReadTimeout t | ConnectionError t | HTTPError t | JSONDecodeError t
  | TypeError t | AttributeError t | OtherError _ t => t
  end.

Definition Exc (A : Type) : Type := (py_exn + A)%type.

Definition raise {A} (e : py_exn) : Exc A := inl e.
Definition ok {A} (a : A) : Exc A := inr a.
Definition exc_bind {A B} (m : Exc A) (k : A -> Exc B) : Exc B :=
  match m with inl e => inl e | inr a => k a end.

Notation "'let!' x := m 'in' k" := (exc_bind m (fun x => k))
  (at level 200, x name, m at level 100, k at level 200).

(* ------------------------------------------------------------------ *)
(** ** The [requests] library *)

(** The request [requests.post(url, headers=..., json=..., timeout=...)]
    sends. *)
Record request : Type := mkRequest {
  req_url : string;
  req_headers : list (string * string);
  req_json : json;
  req_timeout : Z
}.

(** What [response.json()] does on the body: decode it, or raise
    [requests.exceptions.JSONDecodeError] with the decoder's text. *)
Inductive body_decoding : Type :=
| Decodes (v : json)
| Undecodable (text : string).

Record response : Type := mkResponse {
  status_code : Z;
  reason : string;
  resp_url : string;
  resp_text : string;
  resp_json : body_decoding
}.

(** The outcome of one [requests.post] call: a response, or an exception
    (timeout, connection or TLS failure, ...). *)
Inductive post_result : Type :=
| Responded (r : response)
| PostRaised (e : py_exn).

(** [Response.raise_for_status] of the requests library. *)
Definition raise_for_status (r : response) : Exc unit :=
  let s := status_code r in
  if (400 <=? s) && (s <? 500) then
    raise (HTTPError (py_str_int s ++ " Client Error: " ++ reason r
                      ++ " for url: " ++ resp_url r))
  else if (500 <=? s) && (s <? 600) then
    raise (HTTPError (py_str_int s ++ " Server Error: " ++ reason r
                      ++ " for url: " ++ resp_url r))
  else ok tt.

(** [Response.json()]. *)
Definition response_json (r : response) : Exc json :=
  match resp_json r with
  | Decodes v => ok v
  | Undecodable t => raise (JSONDecodeError t)
  end.

(** [json.JSONDecodeError(msg, doc, 0)]: its [str] adds the position. *)
Definition json_decode_error_at0 (msg : string) : py_exn :=
  JSONDecodeError (msg ++ ": line 1 column 1 (char 0)").

(* ------------------------------------------------------------------ *)
(** ** Python operations on a decoded result *)

Definition type_name (v : json) : string :=
  match v with
  | JNull => "NoneType" | JBool _ => "bool" | JNum _ => "int"
  | JStr _ => "str" | JArr _ => "list" | JObj _ => "dict"
  end.

(** [k in v]. *)
Definition py_contains (k : string) (v : json) : Exc bool :=
  match v with
  | JObj f => ok (match dict_lookup k f with Some _ => true | None => false end)
  | JArr l => ok (existsb (is_str k) l)
  | JStr s => ok (substring_of k s)
  | _ => raise (TypeError ("argument of type '" ++ type_name v
                           ++ "' is not iterable"))
  end.

(** [v[k]] with a string key. *)
Definition py_getitem (v : json) (k : string) : Exc json :=
  match v with
  | JObj f =>
      match dict_lookup k f with
      | Some x => ok x
      | None => raise (OtherError "KeyError" ("'" ++ k ++ "'"))
      end
  | JArr _ => raise (TypeError "list indices must be integers or slices, not str")
  | JStr _ => raise (TypeError "string indices must be integers, not 'str'")
  | _ => raise (TypeError ("'" ++ type_name v ++ "' object is not subscriptable"))
  end.

(** [v.get(k, default)]. *)
Definition py_dict_get (v : json) (k : string) (default : json) : Exc json :=
  match v with
  | JObj f => ok (dict_get f k default)
  | _ => raise (AttributeError ("'" ++ type_name v
                                ++ "' object has no attribute 'get'"))
  end.

(** [k in v and v[k]], evaluated left to right with short-circuit; the
    result is the truth value the [if] tests. *)
Definition in_and_truthy (k : string) (v : json) : Exc bool :=
  let! present := py_contains k v in
  if present then (let! x := py_getitem v k in ok (py_truthy x)) else ok false.

(* ------------------------------------------------------------------ *)
(** ** Programs with [print] and [requests.post] *)

Inductive io (A : Type) : Type :=
| Ret (a : A)
| Emit (line : string) (next : io A)
| Post (rq : request) (k : post_result -> io A).

Arguments Ret {A} a.
Arguments Emit {A} line next.
Arguments Post {A} rq k.

Fixpoint io_bind {A B} (p : io A) (f : A -> io B) : io B :=
  match p with
  | Ret a => f a
  | Emit l next => Emit l (io_bind next f)
  | Post rq k => Post rq (fun r => io_bind (k r) f)
  end.

(** [try: body except Exception as e: handler(e)]. *)
Definition try_except {A} (body : io (Exc A)) (handler : py_exn -> io A) : io A :=
  io_bind body (fun r => match r with inl e => handler e | inr a => Ret a end).

(** A stub server: the outcome of each request (network and service
    together), a fixed function of the request. *)
Definition server : Type := request -> post_result.

(** What a run leaves behind: the requests sent and the lines printed. *)
Record world : Type := mkWorld { sent : list request; stdout : list string }.

Fixpoint run {A} (srv : server) (p : io A) (w : world) : A * world :=
  match p with
  | Ret a => (a, w)
  | Emit l next => run srv next (mkWorld (sent w) (app (stdout w) [l]))
  | Post rq k => run srv (k (srv rq)) (mkWorld (app (sent w) [rq]) (stdout w))
  end.

Definition output {A} (srv : server) (p : io A) : A :=
  fst (run srv p (mkWorld [] [])).

(* ------------------------------------------------------------------ *)
(** ** [src/app.py]: configuration *)

(** The module-level endpoint constants of [app.py]. *)
Record config : Type := mkConfig {
  MODAL_INSIGHTS_ENDPOINT_URL : string;
  MODAL_QNA_ENDPOINT_URL : string
}.

Definition app_config : config := mkConfig
  "https://mehdinathani--ai-meeting-insights-service-v2-get-insights.modal.run"
  "https://mehdinathani--ai-meeting-qna-service-v2-1-guardrails-ask-74022e.modal.run".

Definition INSIGHTS_PLACEHOLDER : string :=
  "YOUR_MODAL_URL_FOR_ai-meeting-processor-v6-6-qna_MAIN_ENDPOINT".
Definition QNA_PLACEHOLDER : string :=
  "YOUR_MODAL_URL_FOR_ai-meeting-processor-v6-6-qna_QNA_ENDPOINT".

(** The guard [URL == placeholder or not URL or not URL.startswith("https://")]. *)
Definition endpoint_misconfigured (url placeholder : string) : bool :=
  String.eqb url placeholder || String.eqb url "" || negb (startswith url "https://").

Definition json_headers : list (string * string) :=
  [("Content-Type", "application/json")].

(** [not s.strip()]. *)
Definition is_blank (s : string) : bool := String.eqb (py_strip s) "".

(* ------------------------------------------------------------------ *)
(** ** [src/app.py]: [get_all_insights_from_modal] *)

Definition err_summary : string := "Error: Could not retrieve summary.".
Definition err_decisions : string := "Error: Could not retrieve decisions.".
Definition err_actions : string := "Error: Could not retrieve action items.".
Definition err_sentiment : string := "Error: Could not retrieve sentiment.".

Definition insights_config_error : string :=
  "Insights Modal endpoint URL not correctly configured in `app.py`.".
Definition insights_blank_message : string :=
  "Please enter some transcript text first.".

(** The statements after [response = requests.post(...)] and its two
    prints, up to the [return]: the tuple, or the exception they raise. *)
Definition insights_from_response (response : response) : Exc (list json) :=
  let! _ := raise_for_status response in
  let! results := response_json response in
  match results with
  | JNull => raise (json_decode_error_at0 "JSON parsed to None")
  | _ =>
      let! has_error := in_and_truthy "error" results in
      if has_error then
        let! e := py_getitem results "error" in
        ok [JStr ("AI Service Error (Insights): " ++ py_str e);
            JStr ""; JStr ""; JStr ""]
      else
        let! summary := py_dict_get results "summary" (JStr "Summary not provided.") in
        let! decisions := py_dict_get results "decisions" (JStr "Decisions not provided.") in
        let! actions := py_dict_get results "actions" (JStr "Action items not provided.") in
        let! sentiment := py_dict_get results "sentiment" (JStr "Sentiment not provided.") in
        ok [summary; decisions; actions; sentiment]
  end.

(** The handler [except Exception as e]. *)
Definition insights_handler (e : py_exn) : io (list json) :=
  Emit ("ERROR in get_all_insights_from_modal: " ++ exn_str e)
    (Ret [JStr ("Error processing insights: " ++ exn_str e);
          JStr err_decisions; JStr err_actions; JStr err_sentiment]).

Definition get_all_insights_from_modal (cfg : config) (transcript_text : string)
  : io (list json) :=
  let url := MODAL_INSIGHTS_ENDPOINT_URL cfg in
  if endpoint_misconfigured url INSIGHTS_PLACEHOLDER then
    let error_msg := insights_config_error in
    Emit ("ERROR: " ++ error_msg ++ " Current value: " ++ url)
      (Ret [JStr error_msg; JStr err_decisions; JStr err_actions; JStr err_sentiment])
  else if is_blank transcript_text then
    Ret [JStr insights_blank_message; JStr ""; JStr ""; JStr ""; JStr ""]
  else
    Emit ("INFO: Sending transcript to Modal (Insights): " ++ url)
      (try_except
         (Post (mkRequest url json_headers
                  (JObj [("transcript", JStr transcript_text)]) 300)
            (fun pr =>
               match pr with
               | PostRaised e => Ret (raise e)
               | Responded response =>
                   Emit ("INFO: Response from Modal (Insights). Status: "
                         ++ py_str_int (status_code response))
                     (Emit ("DEBUG: Raw response text (Insights): >>>" ++ nl
                            ++ resp_text response ++ nl ++ "<<<")
                        (Ret (insights_from_response response)))
               end))
         insights_handler).

(* ------------------------------------------------------------------ *)
(** ** [src/app.py]: [ask_question_on_transcript] *)

Definition err_answer : string := "Error: Could not retrieve answer.".

Definition qna_config_error : string :=
  "Q&A Modal endpoint URL not correctly configured in `app.py`.".
Definition qna_blank_transcript_message : string :=
  "Please provide the meeting transcript before asking a question.".
Definition qna_blank_question_message : string :=
  "Please enter a question to ask.".

(** Raising inside a program: [let? x := m in k] runs [k] on the value of
    [m], or stops with [m]'s exception. *)
Definition io_exc_bind {A B} (m : Exc A) (k : A -> io (Exc B)) : io (Exc B) :=
  match m with inl e => Ret (inl e) | inr a => k a end.

Notation "'let?' x := m 'in' k" := (io_exc_bind m (fun x => k))
  (at level 200, x name, m at level 100, k at level 200).

(** The statements after [response = requests.post(...)] and its two
    prints, with the prints of the two [return] paths. *)
Definition qna_from_response (response : response) : io (Exc json) :=
  let? _ := raise_for_status response in
  let? results := response_json response in
  match results with
  | JNull => Ret (raise (json_decode_error_at0 "JSON parsed to None for Q&A"))
  | _ =>
      let? has_error := in_and_truthy "error" results in
      if has_error then
        let? e := py_getitem results "error" in
        Emit ("ERROR: Q&A Service (Modal) reported an error: " ++ py_str e)
          (Ret (ok (JStr ("Q&A Service Error: " ++ py_str e))))
      else
        let? answer := py_dict_get results "answer"
                         (JStr "Answer not provided by AI service.") in
        Emit "INFO: Successfully parsed Q&A answer." (Ret (ok answer))
  end.

Definition qna_handler (e : py_exn) : io json :=
  let msg := "Error during Q&A processing: " ++ exn_str e in
  Emit ("ERROR: " ++ msg) (Ret (JStr msg)).

Definition ask_question_on_transcript (cfg : config)
  (transcript_text question_text : string) : io json :=
  let url := MODAL_QNA_ENDPOINT_URL cfg in
  if endpoint_misconfigured url QNA_PLACEHOLDER then
    let error_msg := qna_config_error in
    Emit ("ERROR: " ++ error_msg ++ " Current value: " ++ url) (Ret (JStr error_msg))
  else if is_blank transcript_text then Ret (JStr qna_blank_transcript_message)
  else if is_blank question_text then Ret (JStr qna_blank_question_message)
  else
    Emit ("INFO: Sending transcript and question to Modal (Q&A): " ++ url)
      (try_except
         (Post (mkRequest url json_headers
                  (JObj [("transcript", JStr transcript_text);
                         ("question", JStr question_text)]) 180)
            (fun pr =>
               match pr with
               | PostRaised e => Ret (raise e)
               | Responded response =>
                   Emit ("INFO: Response from Modal (Q&A). Status: "
                         ++ py_str_int (status_code response))
                     (Emit ("DEBUG: Raw response text (Q&A): >>>" ++ nl
                            ++ resp_text response ++ nl ++ "<<<")
                        (qna_from_response response))
               end))
         qna_handler).

(* ------------------------------------------------------------------ *)
(** ** [src/modal_insights_app.py]: [process_transcript_insights] *)

(** The text block every prompt ends with:
    [\nTranscript:\n---\n{transcript}\n---\n[/INST]\n]. *)
Definition transcript_block (transcript : string) : string :=
  nl ++ "Transcript:" ++ nl ++ "---" ++ nl ++ transcript ++ nl ++ "---" ++ nl
  ++ "[/INST]" ++ nl.

Definition prompt_summary (transcript : string) : string :=
  "<s>[INST] You are an expert meeting summarizer. Given the following meeting transcript, provide a concise summary that highlights the main topics discussed and key outcomes. Focus on clarity and brevity. The summary should be directly usable and informative. Do not add any conversational fluff, introductory remarks like "
  ++ dq ++ "Here is the summary:" ++ dq
  ++ ", or concluding remarks. Just provide the summary itself."
  ++ transcript_block transcript.

Definition prompt_decisions (transcript : string) : string :=
  "<s>[INST] You are an expert meeting analyst. From the following meeting transcript, identify and list all key decisions that were made. Format the decisions as a markdown bullet list (e.g., using '-' or '*' for each item). If no clear decisions were made, state "
  ++ dq ++ "No specific decisions were identified." ++ dq
  ++ " Do not add any conversational fluff. Just provide the markdown list of decisions or the 'no decisions' statement."
  ++ transcript_block transcript.

Definition prompt_actions (transcript : string) : string :=
  "<s>[INST] You are an expert meeting analyst. From the following meeting transcript, extract all action items. For each action item, if possible, identify who is responsible or needs to take action. Format the action items as a markdown bullet list (e.g., using '-' or '*' for each item). Example format: "
  ++ dq ++ "- [Action Item] (Assigned to: [Person/Team, if mentioned, otherwise N/A])" ++ dq
  ++ ". If no action items are found, state "
  ++ dq ++ "No specific action items were identified." ++ dq
  ++ " Do not add any conversational fluff."
  ++ transcript_block transcript.

Definition prompt_sentiment (transcript : string) : string :=
  "<s>[INST]Analyze the overall sentiment of the following meeting transcript. First, state the overall sentiment in one word: Positive, Negative, or Neutral. Then, on a new line, provide a brief 1-2 sentence justification for your sentiment analysis."
  ++ transcript_block transcript ++ "Sentiment and Justification:".

(** [await self._generate_text_from_prompt(prompt, max_new_tokens)] once
    [self.text_generator] is loaded: the generated text, or the exception
    the pipeline or the output check raises.  The model's output is not
    the program's, so it is a parameter. *)
Definition generator : Type := string -> Z -> Exc string.

(** One [try: results[key] = await ... except Exception as e:
    errors.append(f"{label}: {e}"); results[key] = failure_text] block. *)
Definition insight_step (gen : generator) (key label failure_text prompt : string)
  (max_new_tokens : Z) (st : list (string * string) * list string)
  : list (string * string) * list string :=
  let (results, errors) := st in
  match gen prompt max_new_tokens with
  | inr text => (dict_set results key text, errors)
  | inl e => (dict_set results key failure_text, app errors [label ++ ": " ++ exn_str e])
  end.

Definition process_transcript_insights (text_generator : option generator)
  (transcript : string) : list (string * string) :=
  match text_generator with
  | None => [("error", "LLM not loaded.")]
  | Some gen =>
      let results := [("summary", ""); ("decisions", ""); ("actions", "");
                      ("sentiment", ""); ("error", "")] in
      let st := (results, []) in
      let st := insight_step gen "summary" "Summary" "Error generating summary."
                  (prompt_summary transcript) 350 st in
      let st := insight_step gen "decisions" "Decisions" "Error generating decisions."
                  (prompt_decisions transcript) 250 st in
      let st := insight_step gen "actions" "Actions" "Error generating actions."
                  (prompt_actions transcript) 300 st in
      let st := insight_step gen "sentiment" "Sentiment" "Error analyzing sentiment."
                  (prompt_sentiment transcript) 100 st in
      let (results, errors) := st in
      match errors with
      | [] => results
      | _ => dict_set results "error" (py_join "; " errors)
      end
  end.

(** A server that answers every request with status 200 and the JSON
    document [v]. *)
Definition respond_200 (v : json) : server := fun rq =>
  Responded (mkResponse 200 "OK" (req_url rq) "" (Decodes v)).

(** A server whose every request fails with the exception [e]. *)
Definition failing_server (e : py_exn) : server := fun _ => PostRaised e.

(** The request the insights client sends for a transcript. *)
Definition insights_request (cfg : config) (transcript_text : string) : request :=
  mkRequest (MODAL_INSIGHTS_ENDPOINT_URL cfg) json_headers
    (JObj [("transcript", JStr transcript_text)]) 300.

Definition qna_request (cfg : config) (transcript_text question_text : string)
  : request :=
  mkRequest (MODAL_QNA_ENDPOINT_URL cfg) json_headers
    (JObj [("transcript", JStr transcript_text); ("question", JStr question_text)])
    180.

(** A program that performs no [requests.post]. *)
Fixpoint no_post {A} (p : io A) : Prop :=
  match p with
  | Ret _ => True
  | Emit _ next => no_post next
  | Post _ _ => False
  end.

(* ------------------------------------------------------------------ *)
(** ** Python string searching and slicing *)

(** [s[:n]] and [s[n:]]. *)
Fixpoint str_take (n : nat) (s : string) : string :=
  match n, s with
  | O, _ => ""
  | S n', String c s' => String c (str_take n' s')
  | S _, EmptyString => ""
  end.

Fixpoint str_drop (n : nat) (s : string) : string :=
  match n, s with
  | O, _ => s
  | S n', String _ s' => str_drop n' s'
  | S _, EmptyString => ""
  end.

(** [s.find(sub)] from index [i]: the first index where [sub] occurs. *)
Fixpoint py_find_from (sub s : string) (i : nat) : option nat :=
  if String.prefix sub s then Some i
  else match s with
       | EmptyString => None
       | String _ s' => py_find_from sub s' (S i)
       end.

Definition py_find (sub s : string) : option nat := py_find_from sub s 0.

(** [s.rfind(sub)]: the last index where [sub] occurs. *)
Fixpoint py_rfind_from (sub s : string) (i : nat) (last : option nat) : option nat :=
  let last' := if String.prefix sub s then Some i else last in
  match s with
  | EmptyString => last'
  | String _ s' => py_rfind_from sub s' (S i) last'
  end.

Definition py_rfind (sub s : string) : option nat := py_rfind_from sub s 0 None.

(** [s.split(sep, 1)] for a non-empty [sep]. *)
Definition py_split1 (s sep : string) : list string :=
  match py_find sep s with
  | Some i => [str_take i s; str_drop (i + String.length sep) s]
  | None => [s]
  end.

(* ------------------------------------------------------------------ *)
(** ** [_generate_text_from_prompt] *)

(** [self.text_generator(prompt, max_new_tokens=..., do_sample=True, ...)]:
    the list of outputs the transformers pipeline returns, or the exception
    it raises.  The model samples, so it is a parameter. *)
Definition pipeline : Type := string -> Z -> Exc json.

Definition INST_END : string := "[/INST]".

(** The text extraction after a call:
    [parts = full_response.split("[/INST]", 1)], then the text after the
    marker, or the text after the last copy of the prompt, or the whole
    response. *)
Definition extract_generation (prompt full_response : string) : string :=
  match py_split1 full_response INST_END with
  | _ :: part1 :: _ => py_strip part1
  | _ =>
      match py_rfind prompt full_response with
      | Some prompt_end_index =>
          let start_of_generation := (prompt_end_index + String.length prompt)%nat in
          if (start_of_generation <? String.length full_response)%nat
          then py_strip (str_drop start_of_generation full_response)
          else full_response
      | None => full_response
      end
  end.

(** The body shared by the three [_generate_text_from_prompt] methods,
    given the texts of their [RuntimeError] and [ValueError]. *)
Definition generate_core (not_initialized : string) (unexpected : json -> string)
  (text_generator : option pipeline) (prompt : string) (max_new_tokens : Z)
  : Exc string :=
  match text_generator with
  | None => raise (OtherError "RuntimeError" not_initialized)
  | Some pl =>
      let! outputs := pl prompt max_new_tokens in
      let! well_formed :=
        (if py_truthy outputs then
           match outputs with
           | JArr (o0 :: _) => py_contains "generated_text" o0
           | _ => ok false
           end
         else ok false) in
      match well_formed, outputs with
      | true, JArr (o0 :: _) =>
          let! full := py_getitem o0 "generated_text" in
          match full with
          | JStr full_response => ok (extract_generation prompt full_response)
          | _ => raise (AttributeError ("'" ++ type_name full
                                        ++ "' object has no attribute 'split'"))
          end
      | _, _ => raise (OtherError "ValueError" (unexpected outputs))
      end
  end.

(** [_generate_text_from_prompt] of [InsightsLLMProcessor] and
    [QnALLMProcessor]; they differ only in the tag of the [ValueError]. *)
Definition generate_text_from_prompt (tag : string) : option pipeline -> string -> Z -> Exc string :=
  generate_core "LLM pipeline not initialized."
    (fun outputs => tag ++ ": LLM output unexpected: " ++ py_str outputs).

Definition INSIGHTS_TAG : string := "INSIGHTS_SVC _generate_text (v2)".

(** The insights processor's generator once its pipeline [pl] is loaded. *)
Definition insights_generator (pl : pipeline) : generator :=
  generate_text_from_prompt INSIGHTS_TAG (Some pl).

(* ------------------------------------------------------------------ *)
(** ** [src/modal_qna_app.py]: [answer_question_on_transcript] *)

(** [type(e).__name__]. *)
Definition exn_class (e : py_exn) : string :=
  match e with
  | ReadTimeout _ => "ReadTimeout"
  | ConnectionError _ => "ConnectionError"
  | HTTPError _ => "HTTPError"
  | JSONDecodeError _ => "JSONDecodeError"
  | TypeError _ => "TypeError"
  | AttributeError _ => "AttributeError"
  | OtherError cls _ => cls
  end.

Definition QNA_TAG : string := "QNA_SVC _generate_text (v2.1-guardrails)".

(** [qna_prompt_template.format(transcript_text=..., user_question=...)]. *)
Definition qna_prompt (transcript question : string) : string :=
  py_join nl
    ["<s>[INST]You are an AI assistant specialized in answering questions based ONLY on the provided meeting transcript.";
     "Your primary goal is to determine if the user's question can be answered using the information within the transcript.";
     "";
     "Carefully review the meeting transcript below. Then, analyze the user's question.";
     "";
     "1. If the question is directly and clearly answerable from the transcript, provide a concise answer based SOLELY on the transcript.";
     "2. If the question is about a topic NOT discussed or mentioned in the transcript, you MUST respond with one of the following phrases:";
     "   - " ++ dq ++ "I'm sorry, but that topic does not seem to be covered in this meeting transcript." ++ dq;
     "   - " ++ dq ++ "The provided transcript does not contain information about that." ++ dq;
     "   - " ++ dq ++ "Based on the transcript, there is no discussion related to your question about [briefly mention question topic, e.g., 'the weather']." ++ dq;
     "   Do NOT attempt to answer questions for which the transcript provides no information. Do not use external knowledge.";
     "";
     "Meeting Transcript:";
     "---";
     transcript;
     "---";
     "";
     "User's Question: " ++ question;
     "[/INST]";
     "Answer:"].

(** [QnALLMProcessor.answer_question_on_transcript]; [text_generator] is
    the awaited [_generate_text_from_prompt] once the pipeline is loaded. *)
Definition answer_question_on_transcript (text_generator : option generator)
  (transcript question : string) : list (string * string) :=
  match text_generator with
  | None => [("answer", "Error: AI Model not loaded."); ("error", "LLM not loaded.")]
  | Some gen =>
      match gen (qna_prompt transcript question) 200 with
      | inr answer => [("answer", answer); ("error", "")]
      | inl e =>
          let err_msg := "Error generating answer: " ++ exn_class e ++ " - " ++ exn_str e in
          [("answer", "Error: Could not generate answer from AI."); ("error", err_msg)]
      end
  end.

Definition qna_generator (pl : pipeline) : generator :=
  generate_text_from_prompt QNA_TAG (Some pl).

(* ------------------------------------------------------------------ *)
(** ** The FastAPI endpoints *)

(** A [JSONResponse(content=..., status_code=...)]. *)
Record json_response : Type := mkJSONResponse {
  jr_status : Z;
  jr_content : json
}.

(** What [processor.method.remote(...)] hands back: an awaitable (whose
    await gives the method's result or raises), a dict already, or a value
    of another type. *)
Inductive remote_value : Type :=
| Awaitable (result : Exc json)
| AlreadyDict (d : json)
| OtherType (type_name : string).

(** A remote method call on a transcript (and a question); the call itself
    may raise. *)
Definition remote_call (A : Type) : Type := A -> Exc remote_value.

(** A Python dict of strings, as the JSON object it is sent as. *)
Definition dict_to_json (d : list (string * string)) : json :=
  JObj (map (fun kv => (fst kv, JStr (snd kv))) d).

(** [not x or not isinstance(x, str) or not x.strip()]. *)
Definition invalid_text (x : json) : bool :=
  negb (py_truthy x) ||
  match x with JStr s => is_blank s | _ => true end.

(** The [try] block of both endpoints after the call: await, or use the
    dict, or raise on another type. *)
Definition remote_result (rc : Exc remote_value) : Exc json :=
  let! r := rc in
  match r with
  | Awaitable res => res
  | AlreadyDict d => ok d
  | OtherType ty =>
      raise (OtherError "ValueError" ("Unexpected type from remote: <class '" ++ ty ++ "'>"))
  end.

(** [get_insights] of [modal_insights_app.py]. *)
Definition get_insights (remote : remote_call string)
  (request_data : list (string * json)) : json_response :=
  let transcript := dict_get request_data "transcript" JNull in
  if invalid_text transcript then
    mkJSONResponse 400 (JObj [("error", JStr "Invalid transcript")])
  else
    let t := match transcript with JStr s => s | _ => "" end in
    match remote_result (remote t) with
    | inl e => mkJSONResponse 500 (JObj [("error", JStr ("Endpoint error: " ++ exn_str e))])
    | inr (JObj f) => mkJSONResponse 200 (JObj f)
    | inr _ => mkJSONResponse 500 (JObj [("error", JStr "Non-dict insights")])
    end.

(** [ask_question] of [modal_qna_app.py]. *)
Definition ask_question (remote : remote_call (string * string))
  (request_data : list (string * json)) : json_response :=
  let transcript := dict_get request_data "transcript" JNull in
  let question := dict_get request_data "question" JNull in
  if invalid_text transcript || invalid_text question then
    mkJSONResponse 400 (JObj [("error", JStr "Invalid transcript/question")])
  else
    let t := match transcript with JStr s => s | _ => "" end in
    let q := match question with JStr s => s | _ => "" end in
    match remote_result (remote (t, q)) with
    | inl e => mkJSONResponse 500 (JObj [("error", JStr ("Endpoint error: " ++ exn_str e))])
    | inr (JObj f) => mkJSONResponse 200 (JObj f)
    | inr _ => mkJSONResponse 500 (JObj [("error", JStr "Non-dict Q&A response")])
    end.

(** The reason phrase of the statuses the endpoints use. *)
Definition reason_phrase (status : Z) : string :=
  if status =? 200 then "OK"
  else if status =? 400 then "Bad Request"
  else if status =? 422 then "Unprocessable Entity"
  else "Internal Server Error".

(** The network seen by a client whose endpoint is served by [endpoint]:
    the JSON object posted becomes [request_data]; the endpoint's
    [JSONResponse] arrives with its status and decodes to its content
    ([body_text] is the serialized body, only printed by the clients).
    A body that is not an object is refused by FastAPI with 422. *)
Definition endpoint_server (body_text : string)
  (endpoint : list (string * json) -> json_response) : server := fun rq =>
  let jr := match req_json rq with
            | JObj fields => endpoint fields
            | _ => mkJSONResponse 422 (JObj [("detail", JStr "Unprocessable Entity")])
            end in
  Responded (mkResponse (jr_status jr) (reason_phrase (jr_status jr)) (req_url rq)
               body_text (Decodes (jr_content jr))).

(** Modal's [.remote()] running a processor method: the result comes back
    awaitable or as the dict itself. *)
Definition modal_remote {A} (awaitable : bool) (method : A -> list (string * string))
  : remote_call A := fun x =>
  let d := dict_to_json (method x) in
  ok (if awaitable then Awaitable (ok d) else AlreadyDict d).

(* ------------------------------------------------------------------ *)
(** ** [src/modal_logic.py]: the v6.4 processor and endpoint *)

(** [LLMProcessor._generate_text_from_prompt] of [modal_logic.py]. *)
Definition generate_text_v64 : option pipeline -> string -> Z -> Exc string :=
  generate_core "LLM text_generator pipeline not initialized."
    (fun _ => "LLM returned an unexpected output format.").

(** A triple-quoted template whose last lines are [Transcript:], [---],
    [{transcript_text}], [---] and [[/INST]], after [.format]. *)
Definition v64_template (lines : list string) (transcript : string) : string :=
  py_join nl (lines ++ ["Transcript:"; "---"; transcript; "---"; "[/INST]"])%list.

Definition v64_summary_prompt : string -> string := v64_template
  ["<s>[INST] You are an expert meeting summarizer.";
   "Given the following meeting transcript, provide a concise summary that highlights the main topics discussed and key outcomes.";
   "Focus on clarity and brevity. The summary should be directly usable and informative.";
   "Do not add any conversational fluff, introductory remarks like " ++ dq ++ "Here is the summary:" ++ dq ++ ", or concluding remarks. Just provide the summary itself."].

Definition v64_decisions_prompt : string -> string := v64_template
  ["<s>[INST] You are an expert meeting analyst.";
   "From the following meeting transcript, identify and list all key decisions that were made.";
   "If multiple decisions were made, list each one clearly, perhaps as bullet points.";
   "If no clear decisions were made, state " ++ dq ++ "No specific decisions were identified." ++ dq;
   "Do not add any conversational fluff. Just provide the decisions or the 'no decisions' statement."].

Definition v64_actions_prompt : string -> string := v64_template
  ["<s>[INST] You are an expert meeting analyst.";
   "From the following meeting transcript, extract all action items. For each action item, if possible, identify who is responsible or needs to take action.";
   "List the action items clearly, for example, as bullet points in the format: " ++ dq ++ "- [Action Item] (Assigned to: [Person/Team, if mentioned, otherwise N/A])" ++ dq ++ ".";
   "If no action items are found, state " ++ dq ++ "No specific action items were identified." ++ dq;
   "Do not add any conversational fluff."].

(** One [try/except] task block of the v6.4 processor. *)
Definition v64_step (gen : generator) (key label what failure_text prompt : string)
  (max_new_tokens : Z) (st : list (string * string) * list string)
  : list (string * string) * list string :=
  let (results, task_errors) := st in
  match gen prompt max_new_tokens with
  | inr text => (dict_set results key text, task_errors)
  | inl e =>
      let err_msg := "Error generating " ++ what ++ ": " ++ exn_class e ++ " - " ++ exn_str e in
      (dict_set results key failure_text, app task_errors [label ++ ": " ++ err_msg])
  end.

(** [LLMProcessor.process_transcript_insights] of [modal_logic.py]. *)
Definition process_transcript_insights_v64 (text_generator : option generator)
  (transcript : string) : list (string * string) :=
  match text_generator with
  | None =>
      [("summary", "Error: AI Model component (text_generator) failed to load or was not available.");
       ("decisions", ""); ("actions", "");
       ("error", "LLM text_generator not initialized or unavailable.")]
  | Some gen =>
      let st := ([("summary", ""); ("decisions", ""); ("actions", ""); ("error", "")], []) in
      let st := v64_step gen "summary" "Summary" "summary"
                  "Error: Could not generate summary from AI."
                  (v64_summary_prompt transcript) 350 st in
      let st := v64_step gen "decisions" "Decisions" "decisions"
                  "Error: Could not generate decisions from AI."
                  (v64_decisions_prompt transcript) 250 st in
      let st := v64_step gen "actions" "Actions" "action items"
                  "Error: Could not generate action items from AI."
                  (v64_actions_prompt transcript) 300 st in
      let (results, task_errors) := st in
      match task_errors with
      | [] => results
      | _ => dict_set results "error" (py_join "; " task_errors)
      end
  end.

(** The error content of the v6.4 endpoint. *)
Definition v64_error_content (msg : string) : json :=
  JObj [("summary", JStr ""); ("decisions", JStr ""); ("actions", JStr ""); ("error", JStr msg)].

(** The two [except] clauses of the v6.4 endpoint. *)
Definition v64_handler (e : py_exn) : json_response :=
  match e with
  | TypeError te =>
      mkJSONResponse 500 (v64_error_content
        ("Internal TypeError in AI processing: " ++ te
         ++ ". This suggests an issue with async/await handling."))
  | _ =>
      mkJSONResponse 500 (v64_error_content
        ("Critical unexpected error in AI endpoint: " ++ exn_class e ++ " - "
         ++ exn_str e ++ "."))
  end.

Definition v64_finish (insights : json) : json_response :=
  match insights with
  | JObj f => mkJSONResponse 200 (JObj f)
  | _ =>
      mkJSONResponse 500 (v64_error_content
        ("Internal error: AI service processing resulted in an unexpected data type: <class '"
         ++ type_name insights ++ "'>"))
  end.

(** [process_meeting_insights_endpoint] of [modal_logic.py]. *)
Definition process_meeting_insights_endpoint (remote : remote_call string)
  (request_data : list (string * json)) : json_response :=
  let transcript := dict_get request_data "transcript" JNull in
  if invalid_text transcript then
    mkJSONResponse 400 (v64_error_content
      "Invalid request: 'transcript' field missing, not a string, or empty.")
  else
    let t := match transcript with JStr s => s | _ => "" end in
    match remote t with
    | inl e => v64_handler e
    | inr (Awaitable (inl e)) => v64_handler e
    | inr (Awaitable (inr insights)) => v64_finish insights
    | inr (AlreadyDict d) => v64_finish d
    | inr (OtherType ty) =>
        mkJSONResponse 500 (v64_error_content
          ("Internal error: .remote() call returned an unexpected type: <class '" ++ ty ++ "'>"))
    end.

(* ------------------------------------------------------------------ *)
(** ** Scenarios and predicates the properties are stated with *)

(** [f] has no position where [sub] could start, whatever follows it. *)
Fixpoint no_start_in (sub f : string) : bool :=
  match f with
  | EmptyString => true
  | String _ f' =>
      negb (String.prefix sub f || String.prefix f sub) && no_start_in sub f'
  end.

(** [s] contains no ['[']. *)
Definition no_bracket (s : string) : bool :=
  forallb (fun c => negb (Ascii.eqb c "["%char)) (list_ascii_of_string s).

(** A transformers text-generation pipeline with its default
    [return_full_text=True]: one output whose [generated_text] is the
    prompt followed by the sampled continuation [gen_text prompt n]. *)
Definition echo_pipeline (gen_text : string -> Z -> string) : pipeline :=
  fun prompt n => ok (JArr [JObj [("generated_text", JStr (prompt ++ gen_text prompt n))]]).

(** The part of a prompt template before the transcript: the template's
    text for the empty transcript, less the [tail] characters after it. *)
Definition prompt_head (prompt : string -> string) (tail : nat) : string :=
  str_take (String.length (prompt "") - tail) (prompt "").

(** The field [k] of a request is missing, [None], not a string, or a
    string of whitespace only. *)
Definition text_field_invalid (request_data : list (string * json)) (k : string) : Prop :=
  match dict_get request_data k JNull with
  | JStr s => is_blank s = true
  | _ => True
  end.

(** The insights service as the client meets it: [get_insights] served
    over HTTP, calling [process_transcript_insights] through Modal. *)
Definition insights_service (awaitable : bool) (text_generator : option generator)
  (body_text : string) : server :=
  endpoint_server body_text
    (get_insights (modal_remote awaitable (process_transcript_insights text_generator))).


(* ================================================================== *)
(** * Properties *)

(** ** The [io] runner *)

Lemma run_output_indep {A} (srv : server) (p : io A) :
  forall w w', fst (run srv p w) = fst (run srv p w').
Proof.
  induction p as [a | l next IH | rq k IH]; intros w w'; simpl.
  - reflexivity.
  - apply IH.
  - apply IH.
Qed.

Lemma run_no_post_sent {A} (srv : server) (p : io A) :
  no_post p -> forall w, sent (snd (run srv p w)) = sent w.
Proof.
  induction p as [a | l next IH | rq k IH]; simpl; intros Hp w.
  - reflexivity.
  - rewrite (IH Hp). reflexivity.
  - contradiction.
Qed.

Lemma io_bind_no_post {A B} (p : io A) (f : A -> io B) :
  no_post p -> (forall a, no_post (f a)) -> no_post (io_bind p f).
Proof.
  induction p as [a | l next IH | rq k IH]; simpl; intros Hp Hf.
  - apply Hf.
  - apply IH; assumption.
  - contradiction.
Qed.

Lemma run_emit {A} (srv : server) (l : string) (p : io A) (w : world) :
  run srv (Emit l p) w = run srv p (mkWorld (sent w) (app (stdout w) [l])).
Proof. reflexivity. Qed.

Lemma run_post_once {A} (srv : server) (rq : request) (k : post_result -> io (Exc A))
  (h : py_exn -> io A) (w : world) :
  (forall r, no_post (k r)) -> (forall e, no_post (h e)) ->
  sent (snd (run srv (try_except (Post rq k) h) w)) = app (sent w) [rq].
Proof.
  intros Hk Hh. unfold try_except. simpl.
  rewrite run_no_post_sent; [reflexivity |].
  apply io_bind_no_post; [apply Hk |].
  intros [e | a]; simpl; [apply Hh | exact I].
Qed.

Create HintDb io_db.
#[local] Hint Resolve io_bind_no_post : io_db.

(** ** The insights client returns four values on every non-blank path *)

Lemma insights_from_response_length (r : response) (l : list json) :
  insights_from_response r = inr l -> List.length l = 4%nat.
Proof.
  unfold insights_from_response, exc_bind.
  destruct (raise_for_status r); [discriminate |].
  destruct (response_json r) as [e | results]; [discriminate |].
  destruct results; try (simpl; discriminate);
    match goal with
    | |- context [in_and_truthy ?k ?v] =>
        destruct (in_and_truthy k v) as [? | []]; [discriminate | |]
    end;
    repeat match goal with
      | |- context [py_getitem ?v ?k] => destruct (py_getitem v k); [discriminate |]
      | |- context [py_dict_get ?v ?k ?d] => destruct (py_dict_get v k d); [discriminate |]
      end;
    intros H; injection H as <-; reflexivity.
Qed.

Lemma insights_four_values (cfg : config) (transcript_text : string)
  (srv : server) (w : world) :
  endpoint_misconfigured (MODAL_INSIGHTS_ENDPOINT_URL cfg) INSIGHTS_PLACEHOLDER = true
  \/ is_blank transcript_text = false ->
  List.length (fst (run srv (get_all_insights_from_modal cfg transcript_text) w)) = 4%nat.
Proof.
  intros Hpath. unfold get_all_insights_from_modal.
  destruct (endpoint_misconfigured _ _) eqn:Hcfg; [reflexivity |].
  destruct Hpath as [Hpath | Hpath]; [discriminate | rewrite Hpath].
  unfold try_except. simpl.
  destruct (srv _) as [response | e]; simpl; [| reflexivity].
  destruct (insights_from_response response) eqn:Hr; simpl; [reflexivity |].
  apply (insights_from_response_length response); assumption.
Qed.

(** ** C1 *)

(** Claim C1: the insights client always returns the fixed 4-tuple shape.
    On the blank transcript ["   "], with the configured endpoint of
    [app.py], it returns five values: the validation message and four
    empty strings (every other path returns four, [insights_four_values]). *)
Theorem insights_blank_returns_five_values (srv : server) (w : world) :
  fst (run srv (get_all_insights_from_modal app_config "   ") w)
  = [JStr "Please enter some transcript text first."; JStr ""; JStr ""; JStr ""; JStr ""]
  /\ List.length (fst (run srv (get_all_insights_from_modal app_config "   ") w)) = 5%nat.
Proof. split; reflexivity. Qed.

(** ** C2 *)

(** Claim C2: with a correctly configured endpoint, a blank transcript
    yields the validation message at once: no request is sent and the world
    is left as it was (the call counter stays at zero); and no other input,
    configuration or server behaviour produces that outcome. *)
Theorem insights_blank_short_circuits (cfg : config) (transcript_text : string)
  (srv : server) (w : world) :
  endpoint_misconfigured (MODAL_INSIGHTS_ENDPOINT_URL cfg) INSIGHTS_PLACEHOLDER = false ->
  is_blank transcript_text = true ->
  run srv (get_all_insights_from_modal cfg transcript_text) w
  = ([JStr insights_blank_message; JStr ""; JStr ""; JStr ""; JStr ""], w)
  /\ sent (snd (run srv (get_all_insights_from_modal cfg transcript_text) w)) = sent w
  /\ (forall cfg' t' srv' w',
        endpoint_misconfigured (MODAL_INSIGHTS_ENDPOINT_URL cfg') INSIGHTS_PLACEHOLDER = true
        \/ is_blank t' = false ->
        fst (run srv' (get_all_insights_from_modal cfg' t') w')
        <> [JStr insights_blank_message; JStr ""; JStr ""; JStr ""; JStr ""]).
Proof.
  intros Hcfg Hblank.
  assert (Hrun : run srv (get_all_insights_from_modal cfg transcript_text) w
                 = ([JStr insights_blank_message; JStr ""; JStr ""; JStr ""; JStr ""], w)).
  { unfold get_all_insights_from_modal. rewrite Hcfg, Hblank. reflexivity. }
  split; [exact Hrun |]. split; [rewrite Hrun; reflexivity |].
  intros cfg' t' srv' w' Hother Heq.
  pose proof (insights_four_values cfg' t' srv' w' Hother) as Hlen.
  rewrite Heq in Hlen. discriminate.
Qed.

Lemma insights_blank_short_circuits_witness :
  endpoint_misconfigured (MODAL_INSIGHTS_ENDPOINT_URL app_config) INSIGHTS_PLACEHOLDER = false
  /\ is_blank "   " = true
  /\ run (respond_200 (JObj [])) (get_all_insights_from_modal app_config "   ") (mkWorld [] [])
     = ([JStr insights_blank_message; JStr ""; JStr ""; JStr ""; JStr ""], mkWorld [] []).
Proof.
  split; [reflexivity |]. split; [reflexivity |].
  apply (insights_blank_short_circuits app_config "   " (respond_200 (JObj [])) (mkWorld [] []));
    reflexivity.
Defined.

(** ** The insights client's network path *)

(** The tuple the [except] handler returns. *)
Definition insights_error_tuple (e : py_exn) : list json :=
  [JStr ("Error processing insights: " ++ exn_str e);
   JStr err_decisions; JStr err_actions; JStr err_sentiment].

Lemma insights_network_path (cfg : config) (transcript_text : string)
  (srv : server) (w : world) :
  endpoint_misconfigured (MODAL_INSIGHTS_ENDPOINT_URL cfg) INSIGHTS_PLACEHOLDER = false ->
  is_blank transcript_text = false ->
  fst (run srv (get_all_insights_from_modal cfg transcript_text) w)
  = match srv (insights_request cfg transcript_text) with
    | PostRaised e => insights_error_tuple e
    | Responded response =>
        match insights_from_response response with
        | inl e => insights_error_tuple e
        | inr l => l
        end
    end.
Proof.
  intros Hcfg Hblank. unfold get_all_insights_from_modal.
  rewrite Hcfg, Hblank. unfold try_except. simpl.
  unfold insights_request.
  destruct (srv _) as [response | e]; simpl; [| reflexivity].
  destruct (insights_from_response response); reflexivity.
Qed.

(** [insights_from_response] on a 200 response whose body decodes to a
    JSON object. *)
Lemma insights_from_response_object (response : response)
  (fields : list (string * json)) :
  status_code response = 200 ->
  resp_json response = Decodes (JObj fields) ->
  insights_from_response response
  = match dict_lookup "error" fields with
    | Some v =>
        if py_truthy v
        then ok [JStr ("AI Service Error (Insights): " ++ py_str v); JStr ""; JStr ""; JStr ""]
        else ok [dict_get fields "summary" (JStr "Summary not provided.");
                 dict_get fields "decisions" (JStr "Decisions not provided.");
                 dict_get fields "actions" (JStr "Action items not provided.");
                 dict_get fields "sentiment" (JStr "Sentiment not provided.")]
    | None =>
        ok [dict_get fields "summary" (JStr "Summary not provided.");
            dict_get fields "decisions" (JStr "Decisions not provided.");
            dict_get fields "actions" (JStr "Action items not provided.");
            dict_get fields "sentiment" (JStr "Sentiment not provided.")]
    end.
Proof.
  intros Hstatus Hbody.
  unfold insights_from_response, raise_for_status, response_json.
  rewrite Hstatus, Hbody. simpl.
  unfold in_and_truthy, py_contains, py_getitem. simpl.
  destruct (dict_lookup "error" fields) as [v |]; simpl; [| reflexivity].
  destruct (py_truthy v); reflexivity.
Qed.

(** ** C3 *)

(** Claim C3 as written: a 200 response [{"error": "model failed"}] gives
    ["AI Service Error: model failed"] and three empty strings.  The client
    tags the message with the service name instead. *)
Lemma insights_service_error_text_counterexample :
  output (respond_200 (JObj [("error", JStr "model failed")]))
         (get_all_insights_from_modal app_config "Discuss the Q3 budget.")
  = [JStr "AI Service Error (Insights): model failed"; JStr ""; JStr ""; JStr ""]
  /\ output (respond_200 (JObj [("error", JStr "model failed")]))
            (get_all_insights_from_modal app_config "Discuss the Q3 budget.")
     <> [JStr "AI Service Error: model failed"; JStr ""; JStr ""; JStr ""].
Proof.
  split; [reflexivity |].
  vm_compute. intros H. injection H as H. discriminate.
Qed.

(** Claim C3, amended: for a 200 response whose JSON object carries an
    [error] field with a truthy value [v] (e.g. a non-empty string), the
    insights client returns ["AI Service Error (Insights): " ++ str(v)] in
    the first slot and empty strings in the other three. *)
Theorem insights_service_error_reported (cfg : config) (transcript_text : string)
  (srv : server) (w : world) (response : response)
  (fields : list (string * json)) (v : json) :
  endpoint_misconfigured (MODAL_INSIGHTS_ENDPOINT_URL cfg) INSIGHTS_PLACEHOLDER = false ->
  is_blank transcript_text = false ->
  srv (insights_request cfg transcript_text) = Responded response ->
  status_code response = 200 ->
  resp_json response = Decodes (JObj fields) ->
  dict_lookup "error" fields = Some v ->
  py_truthy v = true ->
  fst (run srv (get_all_insights_from_modal cfg transcript_text) w)
  = [JStr ("AI Service Error (Insights): " ++ py_str v); JStr ""; JStr ""; JStr ""].
Proof.
  intros Hcfg Hblank Hsrv Hstatus Hbody Herr Htruthy.
  rewrite (insights_network_path cfg transcript_text srv w Hcfg Hblank), Hsrv.
  rewrite (insights_from_response_object response fields Hstatus Hbody), Herr, Htruthy.
  reflexivity.
Qed.

Lemma insights_service_error_reported_witness :
  fst (run (respond_200 (JObj [("error", JStr "model failed")]))
           (get_all_insights_from_modal app_config "Discuss the Q3 budget.")
           (mkWorld [] []))
  = [JStr ("AI Service Error (Insights): " ++ "model failed"); JStr ""; JStr ""; JStr ""].
Proof.
  apply (insights_service_error_reported app_config "Discuss the Q3 budget."
           (respond_200 (JObj [("error", JStr "model failed")])) (mkWorld [] [])
           (mkResponse 200 "OK" (MODAL_INSIGHTS_ENDPOINT_URL app_config) ""
              (Decodes (JObj [("error", JStr "model failed")])))
           [("error", JStr "model failed")] (JStr "model failed"));
    reflexivity.
Defined.

(** ** C4 *)

(** Claim C4: for a 200 response whose JSON object has no [error] field,
    or one with an empty (falsy) value, each of the four fields is its
    value in the object when present and its own placeholder when absent;
    the result is never the failure tuple. *)
Theorem insights_missing_fields_fallback (cfg : config) (transcript_text : string)
  (srv : server) (w : world) (response : response)
  (fields : list (string * json)) :
  endpoint_misconfigured (MODAL_INSIGHTS_ENDPOINT_URL cfg) INSIGHTS_PLACEHOLDER = false ->
  is_blank transcript_text = false ->
  srv (insights_request cfg transcript_text) = Responded response ->
  status_code response = 200 ->
  resp_json response = Decodes (JObj fields) ->
  (dict_lookup "error" fields = None
   \/ exists v, dict_lookup "error" fields = Some v /\ py_truthy v = false) ->
  fst (run srv (get_all_insights_from_modal cfg transcript_text) w)
  = [match dict_lookup "summary" fields with
     | Some v => v | None => JStr "Summary not provided." end;
     match dict_lookup "decisions" fields with
     | Some v => v | None => JStr "Decisions not provided." end;
     match dict_lookup "actions" fields with
     | Some v => v | None => JStr "Action items not provided." end;
     match dict_lookup "sentiment" fields with
     | Some v => v | None => JStr "Sentiment not provided." end].
Proof.
  intros Hcfg Hblank Hsrv Hstatus Hbody Herr.
  rewrite (insights_network_path cfg transcript_text srv w Hcfg Hblank), Hsrv.
  rewrite (insights_from_response_object response fields Hstatus Hbody).
  destruct Herr as [Hnone | [v [Hsome Hfalse]]].
  - rewrite Hnone. reflexivity.
  - rewrite Hsome, Hfalse. reflexivity.
Qed.

Lemma insights_missing_fields_fallback_witness :
  fst (run (respond_200 (JObj [("summary", JStr "S"); ("decisions", JStr "- D");
                               ("actions", JStr "- A"); ("error", JStr "")]))
           (get_all_insights_from_modal app_config "Discuss the Q3 budget.")
           (mkWorld [] []))
  = [JStr "S"; JStr "- D"; JStr "- A"; JStr "Sentiment not provided."].
Proof.
  apply (insights_missing_fields_fallback app_config "Discuss the Q3 budget."
           (respond_200 (JObj [("summary", JStr "S"); ("decisions", JStr "- D");
                               ("actions", JStr "- A"); ("error", JStr "")]))
           (mkWorld [] [])
           (mkResponse 200 "OK" (MODAL_INSIGHTS_ENDPOINT_URL app_config) ""
              (Decodes (JObj [("summary", JStr "S"); ("decisions", JStr "- D");
                              ("actions", JStr "- A"); ("error", JStr "")])))
           [("summary", JStr "S"); ("decisions", JStr "- D");
            ("actions", JStr "- A"); ("error", JStr "")]);
    try reflexivity.
  right. exists (JStr ""). split; reflexivity.
Defined.

(** ** C7 *)

(** Claim C7 as written: each failure kind (timeout, HTTP status,
    transport or decode failure, other failure) maps to its own message.
    The client has one handler for all of them, and its message depends
    only on [str(e)]: a read timeout and a connection failure that carry the
    same text give the same tuple. *)
Lemma insights_failure_kinds_share_message_counterexample :
  output (failing_server (ReadTimeout "Connection timed out"))
         (get_all_insights_from_modal app_config "Discuss the Q3 budget.")
  = output (failing_server (ConnectionError "Connection timed out"))
           (get_all_insights_from_modal app_config "Discuss the Q3 budget.").
Proof. reflexivity. Qed.

(** Claim C7, amended: every exception raised by the POST (timeout,
    transport failure), by [raise_for_status] (HTTP 4xx/5xx), by decoding
    or by handling the result is caught by one handler, which returns
    ["Error processing insights: " ++ str(e)] and the three "Error: Could
    not retrieve X." placeholders.  In particular a timeout gives that
    tuple, and an HTTP 500 response gives
    ["Error processing insights: 500 Server Error: <reason> for url: <url>"]
    whatever its body, which is never decoded. *)
Theorem insights_failures_caught (cfg : config) (transcript_text : string)
  (srv : server) (w : world) :
  endpoint_misconfigured (MODAL_INSIGHTS_ENDPOINT_URL cfg) INSIGHTS_PLACEHOLDER = false ->
  is_blank transcript_text = false ->
  (forall e, srv (insights_request cfg transcript_text) = PostRaised e ->
     fst (run srv (get_all_insights_from_modal cfg transcript_text) w)
     = [JStr ("Error processing insights: " ++ exn_str e);
        JStr "Error: Could not retrieve decisions.";
        JStr "Error: Could not retrieve action items.";
        JStr "Error: Could not retrieve sentiment."])
  /\ (forall response e, srv (insights_request cfg transcript_text) = Responded response ->
        insights_from_response response = inl e ->
        fst (run srv (get_all_insights_from_modal cfg transcript_text) w)
        = [JStr ("Error processing insights: " ++ exn_str e);
           JStr "Error: Could not retrieve decisions.";
           JStr "Error: Could not retrieve action items.";
           JStr "Error: Could not retrieve sentiment."])
  /\ (forall response, srv (insights_request cfg transcript_text) = Responded response ->
        status_code response = 500 ->
        fst (run srv (get_all_insights_from_modal cfg transcript_text) w)
        = [JStr ("Error processing insights: 500 Server Error: " ++ reason response
                 ++ " for url: " ++ resp_url response);
           JStr "Error: Could not retrieve decisions.";
           JStr "Error: Could not retrieve action items.";
           JStr "Error: Could not retrieve sentiment."]).
Proof.
  intros Hcfg Hblank.
  rewrite (insights_network_path cfg transcript_text srv w Hcfg Hblank).
  split; [| split].
  - intros e Hsrv. rewrite Hsrv. reflexivity.
  - intros response e Hsrv Hr. rewrite Hsrv, Hr. reflexivity.
  - intros response Hsrv Hstatus. rewrite Hsrv.
    unfold insights_from_response, raise_for_status. rewrite Hstatus.
    reflexivity.
Qed.

Lemma insights_failures_caught_witness :
  output (fun rq => Responded (mkResponse 500 "Internal Server Error" (req_url rq)
                                 "<html>oops</html>" (Undecodable "Expecting value: line 1 column 1 (char 0)")))
         (get_all_insights_from_modal app_config "Discuss the Q3 budget.")
  = [JStr ("Error processing insights: 500 Server Error: " ++ "Internal Server Error"
           ++ " for url: " ++ MODAL_INSIGHTS_ENDPOINT_URL app_config);
     JStr "Error: Could not retrieve decisions.";
     JStr "Error: Could not retrieve action items.";
     JStr "Error: Could not retrieve sentiment."].
Proof.
  pose proof (insights_failures_caught app_config "Discuss the Q3 budget."
           (fun rq => Responded (mkResponse 500 "Internal Server Error" (req_url rq)
                                   "<html>oops</html>"
                                   (Undecodable "Expecting value: line 1 column 1 (char 0)")))
           (mkWorld [] []) eq_refl eq_refl) as (_ & _ & H500).
  exact (H500 _ eq_refl eq_refl).
Defined.

(** ** The Q&A client *)

(** Case analysis on every [match] left in a goal [no_post p]. *)
Ltac solve_no_post :=
  repeat (simpl; first
    [ exact I
    | match goal with |- context [match ?x with _ => _ end] => destruct x end ]).

Lemma qna_from_response_no_post (response : response) :
  no_post (qna_from_response response).
Proof.
  unfold qna_from_response, io_exc_bind, in_and_truthy, exc_bind.
  solve_no_post.
Qed.

Lemma qna_sends_one_request (cfg : config) (transcript_text question_text : string)
  (srv : server) (w : world) :
  endpoint_misconfigured (MODAL_QNA_ENDPOINT_URL cfg) QNA_PLACEHOLDER = false ->
  is_blank transcript_text = false -> is_blank question_text = false ->
  sent (snd (run srv (ask_question_on_transcript cfg transcript_text question_text) w))
  = app (sent w) [qna_request cfg transcript_text question_text].
Proof.
  intros Hcfg Ht Hq. unfold ask_question_on_transcript.
  rewrite Hcfg, Ht, Hq. cbn -[run try_except].
  rewrite run_emit, run_post_once; [reflexivity | |].
  - intros [response | e]; simpl; [apply qna_from_response_no_post | exact I].
  - intros e; simpl; exact I.
Qed.

Lemma insights_sends_one_request (cfg : config) (transcript_text : string)
  (srv : server) (w : world) :
  endpoint_misconfigured (MODAL_INSIGHTS_ENDPOINT_URL cfg) INSIGHTS_PLACEHOLDER = false ->
  is_blank transcript_text = false ->
  sent (snd (run srv (get_all_insights_from_modal cfg transcript_text) w))
  = app (sent w) [insights_request cfg transcript_text].
Proof.
  intros Hcfg Ht. unfold get_all_insights_from_modal.
  rewrite Hcfg, Ht. cbn -[run try_except].
  rewrite run_emit, run_post_once; [reflexivity | |].
  - intros [response | e]; simpl; exact I.
  - intros e; simpl; exact I.
Qed.

(** ** C5 *)

(** Claim C5: [ask_question_on_transcript] checks, in this order, the
    endpoint configuration, a blank transcript, a blank question; each
    failing check returns its own message and sends nothing, and the one
    request is sent only when all three pass. *)
Theorem qna_precondition_order (cfg : config) (transcript_text question_text : string)
  (srv : server) (w : world) :
  let p := ask_question_on_transcript cfg transcript_text question_text in
  let bad_cfg := endpoint_misconfigured (MODAL_QNA_ENDPOINT_URL cfg) QNA_PLACEHOLDER in
  (bad_cfg = true ->
     fst (run srv p w) = JStr qna_config_error /\ sent (snd (run srv p w)) = sent w)
  /\ (bad_cfg = false -> is_blank transcript_text = true ->
        run srv p w = (JStr qna_blank_transcript_message, w))
  /\ (bad_cfg = false -> is_blank transcript_text = false ->
        is_blank question_text = true ->
        run srv p w = (JStr qna_blank_question_message, w))
  /\ (bad_cfg = false -> is_blank transcript_text = false ->
        is_blank question_text = false ->
        sent (snd (run srv p w))
        = app (sent w) [qna_request cfg transcript_text question_text])
  /\ qna_config_error <> qna_blank_transcript_message
  /\ qna_config_error <> qna_blank_question_message
  /\ qna_blank_transcript_message <> qna_blank_question_message.
Proof.
  intros p bad_cfg. subst p bad_cfg.
  split; [| split; [| split; [| split; [| split; [| split]]]]].
  - intros Hcfg. unfold ask_question_on_transcript. rewrite Hcfg. split; reflexivity.
  - intros Hcfg Ht. unfold ask_question_on_transcript. rewrite Hcfg, Ht. reflexivity.
  - intros Hcfg Ht Hq. unfold ask_question_on_transcript. rewrite Hcfg, Ht, Hq.
    reflexivity.
  - apply qna_sends_one_request.
  - discriminate.
  - discriminate.
  - discriminate.
Qed.

Lemma qna_precondition_order_witness :
  run (respond_200 (JObj [("answer", JStr "Thursday")]))
      (ask_question_on_transcript app_config "Meeting notes" "  ") (mkWorld [] [])
  = (JStr qna_blank_question_message, mkWorld [] []).
Proof.
  destruct (qna_precondition_order app_config "Meeting notes" "  "
              (respond_200 (JObj [("answer", JStr "Thursday")])) (mkWorld [] []))
    as (_ & _ & Hq & _).
  apply Hq; reflexivity.
Defined.

(** ** C6 *)

Lemma placeholder_or_insecure_misconfigured (url placeholder : string) :
  url = placeholder \/ startswith url "https://" = false ->
  endpoint_misconfigured url placeholder = true.
Proof.
  unfold endpoint_misconfigured. intros [-> | Hs].
  - rewrite String.eqb_refl. reflexivity.
  - rewrite Hs, !orb_true_r. reflexivity.
Qed.

(** Claim C6: for both clients, an endpoint equal to its placeholder or not
    starting with ["https://"] makes the call return the configuration
    message without sending any request; that message is not of the form of
    any runtime error message of the same client. *)
Theorem misconfigured_endpoint_short_circuits (cfg : config)
  (transcript_text question_text : string) (srv : server) (w : world) :
  (MODAL_INSIGHTS_ENDPOINT_URL cfg = INSIGHTS_PLACEHOLDER
   \/ startswith (MODAL_INSIGHTS_ENDPOINT_URL cfg) "https://" = false ->
   fst (run srv (get_all_insights_from_modal cfg transcript_text) w)
   = [JStr insights_config_error; JStr err_decisions; JStr err_actions; JStr err_sentiment]
   /\ sent (snd (run srv (get_all_insights_from_modal cfg transcript_text) w)) = sent w)
  /\ (MODAL_QNA_ENDPOINT_URL cfg = QNA_PLACEHOLDER
      \/ startswith (MODAL_QNA_ENDPOINT_URL cfg) "https://" = false ->
      fst (run srv (ask_question_on_transcript cfg transcript_text question_text) w)
      = JStr qna_config_error
      /\ sent (snd (run srv (ask_question_on_transcript cfg transcript_text question_text) w))
         = sent w)
  /\ (forall m, insights_config_error <> "Error processing insights: " ++ m
                /\ insights_config_error <> "AI Service Error (Insights): " ++ m)
  /\ (forall m, qna_config_error <> "Error during Q&A processing: " ++ m
                /\ qna_config_error <> "Q&A Service Error: " ++ m).
Proof.
  split; [| split; [| split]].
  - intros H. apply placeholder_or_insecure_misconfigured in H.
    unfold get_all_insights_from_modal. rewrite H. split; reflexivity.
  - intros H. apply placeholder_or_insecure_misconfigured in H.
    unfold ask_question_on_transcript. rewrite H. split; reflexivity.
  - intros m. split; discriminate.
  - intros m. split; discriminate.
Qed.

Lemma misconfigured_endpoint_short_circuits_witness :
  output (respond_200 (JObj []))
         (get_all_insights_from_modal (mkConfig INSIGHTS_PLACEHOLDER "http://qna.local") "T")
  = [JStr insights_config_error; JStr err_decisions; JStr err_actions; JStr err_sentiment].
Proof.
  destruct (misconfigured_endpoint_short_circuits
              (mkConfig INSIGHTS_PLACEHOLDER "http://qna.local") "T" "Q"
              (respond_200 (JObj [])) (mkWorld [] [])) as (Hins & _ & _ & _).
  apply Hins. left. reflexivity.
Defined.

(** ** C8 *)

(** Claim C8: the one request the insights client sends has timeout 300,
    and the one the Q&A client sends has timeout 180, which is shorter. *)
Theorem request_timeouts (cfg : config) (transcript_text question_text : string)
  (srv : server) (w : world) :
  (endpoint_misconfigured (MODAL_INSIGHTS_ENDPOINT_URL cfg) INSIGHTS_PLACEHOLDER = false ->
   is_blank transcript_text = false ->
   exists rq, sent (snd (run srv (get_all_insights_from_modal cfg transcript_text) w))
              = app (sent w) [rq] /\ req_timeout rq = 300)
  /\ (endpoint_misconfigured (MODAL_QNA_ENDPOINT_URL cfg) QNA_PLACEHOLDER = false ->
      is_blank transcript_text = false -> is_blank question_text = false ->
      exists rq,
        sent (snd (run srv (ask_question_on_transcript cfg transcript_text question_text) w))
        = app (sent w) [rq] /\ req_timeout rq = 180)
  /\ 180 < 300.
Proof.
  split; [| split].
  - intros Hcfg Ht. exists (insights_request cfg transcript_text).
    split; [apply insights_sends_one_request; assumption | reflexivity].
  - intros Hcfg Ht Hq. exists (qna_request cfg transcript_text question_text).
    split; [apply qna_sends_one_request; assumption | reflexivity].
  - lia.
Qed.

Lemma request_timeouts_witness :
  exists rq, sent (snd (run (respond_200 (JObj []))
                            (get_all_insights_from_modal app_config "Meeting notes")
                            (mkWorld [] [])))
             = app [] [rq] /\ req_timeout rq = 300.
Proof.
  destruct (request_timeouts app_config "Meeting notes" "Who?" (respond_200 (JObj []))
              (mkWorld [] [])) as (Hins & _ & _).
  apply Hins; reflexivity.
Defined.

(** ** C9 *)

(** Claim C9: against a fixed server, a second call with the same
    transcript, made after the first one (whose requests and prints are in
    the world), returns the same tuple as the first. *)
Theorem insights_client_deterministic (cfg : config) (transcript_text : string)
  (srv : server) (w : world) :
  let first := run srv (get_all_insights_from_modal cfg transcript_text) w in
  let second := run srv (get_all_insights_from_modal cfg transcript_text) (snd first) in
  fst second = fst first.
Proof. intros first second. apply run_output_indep. Qed.

(** ** C10 *)

(** The text a field ends with: the generated text, or the fixed failure
    text when the generation raised. *)
Definition field_value (x : Exc string) (failure_text : string) : string :=
  match x with inr text => text | inl _ => failure_text end.

Definition raised {A} (x : Exc A) : bool :=
  match x with inl _ => true | inr _ => false end.

(** Claim C10: with the text generator loaded, [process_transcript_insights]
    returns a dict with exactly the keys summary, decisions, actions,
    sentiment and error; each of the four fields holds its generated text,
    or its fixed failure text when its generation raised; and [error] is
    non-empty exactly when at least one of the four generations raised. *)
Theorem process_insights_fields_and_error (gen : generator) (transcript : string) :
  let r := process_transcript_insights (Some gen) transcript in
  let s := gen (prompt_summary transcript) 350 in
  let d := gen (prompt_decisions transcript) 250 in
  let a := gen (prompt_actions transcript) 300 in
  let m := gen (prompt_sentiment transcript) 100 in
  map fst r = ["summary"; "decisions"; "actions"; "sentiment"; "error"]
  /\ dict_lookup "summary" r = Some (field_value s "Error generating summary.")
  /\ dict_lookup "decisions" r = Some (field_value d "Error generating decisions.")
  /\ dict_lookup "actions" r = Some (field_value a "Error generating actions.")
  /\ dict_lookup "sentiment" r = Some (field_value m "Error analyzing sentiment.")
  /\ (dict_get r "error" "" <> "" <-> raised s || raised d || raised a || raised m = true).
Proof.
  intros r s d a m. subst r s d a m.
  unfold process_transcript_insights, insight_step.
  destruct (gen (prompt_summary transcript) 350);
    destruct (gen (prompt_decisions transcript) 250);
    destruct (gen (prompt_actions transcript) 300);
    destruct (gen (prompt_sentiment transcript) 100);
    simpl; repeat split; try reflexivity;
    try (intros H; discriminate H);
    try (intros _; discriminate);
    try (intros H; exfalso; apply H; reflexivity).
Qed.

(* ================================================================== *)
(** * Further properties of the code *)

(** ** Searching, slicing and stripping *)

Lemma str_app_assoc (a b c : string) : (a ++ b) ++ c = a ++ (b ++ c).
Proof. induction a as [| x a IH]; simpl; [reflexivity | now rewrite IH]. Qed.

Lemma str_drop_app (a b : string) (n : nat) :
  str_drop (String.length a + n) (a ++ b) = str_drop n b.
Proof. induction a as [| x a IH]; simpl; [reflexivity | exact IH]. Qed.

Lemma prefix_app_false (f sub x : string) :
  String.prefix sub f = false -> String.prefix f sub = false ->
  String.prefix sub (f ++ x) = false.
Proof.
  revert sub. induction f as [| b f IH]; intros sub H1 H2.
  - destruct sub; discriminate.
  - destruct sub as [| a sub]; [discriminate |]. simpl in *.
    destruct (ascii_dec a b) as [<- | Hne].
    + destruct (ascii_dec a a) as [_ | Hn]; [| congruence]. apply IH; assumption.
    + reflexivity.
Qed.

Lemma find_skip (sub f x : string) (i : nat) :
  no_start_in sub f = true ->
  py_find_from sub (f ++ x) i = py_find_from sub x (i + String.length f).
Proof.
  revert i. induction f as [| c f IH]; intros i Hf.
  - simpl. now rewrite Nat.add_0_r.
  - simpl in Hf. apply andb_true_iff in Hf as [Hc Hf].
    apply negb_true_iff, orb_false_iff in Hc as [H1 H2].
    pose proof (prefix_app_false (String c f) sub x H1 H2) as Hp.
    change (String c f ++ x) with (String c (f ++ x)) in *.
    unfold py_find_from at 1; fold py_find_from. rewrite Hp.
    rewrite (IH (S i) Hf). simpl. now rewrite Nat.add_succ_r.
Qed.

Lemma no_bracket_no_start (t : string) :
  no_bracket t = true -> no_start_in INST_END t = true.
Proof.
  induction t as [| c t IH]; intros H; [reflexivity |].
  unfold no_bracket in H. cbn [list_ascii_of_string forallb] in H.
  apply andb_true_iff in H as [Hc Ht].
  cbn [no_start_in]. rewrite (IH Ht), andb_true_r.
  destruct (Ascii.eqb_spec c "["%char) as [-> | Hne]; [discriminate |].
  unfold INST_END. cbn [String.prefix].
  destruct (ascii_dec "["%char c) as [Heq | _]; [congruence |].
  destruct (ascii_dec c "["%char) as [Heq | _]; [congruence |].
  reflexivity.
Qed.

Lemma py_strip_space_cons (c : ascii) (s : string) :
  py_isspace c = true -> py_strip (String c s) = py_strip s.
Proof. intros H. unfold py_strip. simpl. now rewrite H. Qed.

Lemma prefix_self_app (s r : string) : String.prefix s (s ++ r) = true.
Proof.
  induction s as [| c s IH]; [destruct r; reflexivity |].
  cbn [String.prefix append]. destruct (ascii_dec c c); [exact IH | congruence].
Qed.

Lemma find_here (sub r : string) (i : nat) : py_find_from sub (sub ++ r) i = Some i.
Proof.
  generalize (prefix_self_app sub r).
  destruct (sub ++ r) as [| c s]; intros H; cbn [py_find_from]; rewrite H; reflexivity.
Qed.

Lemma prefix_app_left_false (f sub x : string) :
  String.prefix f sub = false -> String.prefix (f ++ x) sub = false.
Proof.
  revert sub. induction f as [| b f IH]; intros sub H; [destruct sub; discriminate |].
  destruct sub as [| a sub]; [reflexivity |].
  cbn [String.prefix append] in *.
  destruct (ascii_dec b a); [apply IH; exact H | reflexivity].
Qed.

Lemma no_start_in_app (sub a b : string) :
  no_start_in sub a = true -> no_start_in sub b = true ->
  no_start_in sub (a ++ b) = true.
Proof.
  induction a as [| c a IH]; intros Ha Hb; [exact Hb |].
  cbn [no_start_in] in Ha. apply andb_true_iff in Ha as [Hc Ha].
  apply negb_true_iff, orb_false_iff in Hc as [H1 H2].
  change (String c a ++ b) with (String c (a ++ b)).
  cbn [no_start_in]. rewrite (IH Ha Hb), andb_true_r.
  change (String c (a ++ b)) with (String c a ++ b).
  rewrite (prefix_app_false _ _ _ H1 H2), (prefix_app_left_false _ _ _ H2).
  reflexivity.
Qed.

(** The text after the first ["[/INST]"] is what [_generate_text_from_prompt]
    keeps, stripped. *)
Lemma extract_generation_marker (prompt f rest : string) :
  no_start_in INST_END f = true ->
  extract_generation prompt (f ++ INST_END ++ rest) = py_strip rest.
Proof.
  intros Hf. unfold extract_generation, py_split1, py_find.
  rewrite (find_skip _ _ _ 0 Hf).
  rewrite find_here, Nat.add_0_l, str_drop_app. reflexivity.
Qed.

Lemma py_strip_nl (s : string) : py_strip (nl ++ s) = py_strip s.
Proof. exact (py_strip_space_cons (ascii_of_nat 10) s eq_refl). Qed.

(* ------------------------------------------------------------------ *)
(** ** Generation with a pipeline that echoes its prompt *)

Lemma generate_core_echo (ni : string) (un : json -> string) g (p : string) (n : Z) :
  generate_core ni un (Some (echo_pipeline g)) p n = ok (extract_generation p (p ++ g p n)).
Proof. reflexivity. Qed.

Lemma generate_core_echo_marker (ni : string) (un : json -> string) g (p f rest : string) (n : Z) :
  p = f ++ INST_END ++ rest -> no_start_in INST_END f = true ->
  generate_core ni un (Some (echo_pipeline g)) p n = ok (py_strip (rest ++ g p n)).
Proof.
  intros Hp Hf. rewrite generate_core_echo. f_equal.
  rewrite Hp at 1 2. rewrite !str_app_assoc. exact (extract_generation_marker _ _ _ Hf).
Qed.

Lemma prompt_summary_shape (t : string) :
  prompt_summary t = (prompt_head prompt_summary 13 ++ t ++ nl ++ "---" ++ nl) ++ INST_END ++ nl.
Proof. rewrite !str_app_assoc. reflexivity. Qed.

Lemma prompt_decisions_shape (t : string) :
  prompt_decisions t = (prompt_head prompt_decisions 13 ++ t ++ nl ++ "---" ++ nl) ++ INST_END ++ nl.
Proof. rewrite !str_app_assoc. reflexivity. Qed.

Lemma prompt_actions_shape (t : string) :
  prompt_actions t = (prompt_head prompt_actions 13 ++ t ++ nl ++ "---" ++ nl) ++ INST_END ++ nl.
Proof. rewrite !str_app_assoc. reflexivity. Qed.

Lemma prompt_sentiment_shape (t : string) :
  prompt_sentiment t = (prompt_head prompt_sentiment 41 ++ t ++ nl ++ "---" ++ nl)
                       ++ INST_END ++ nl ++ "Sentiment and Justification:".
Proof. unfold prompt_sentiment at 1, transcript_block. rewrite !str_app_assoc. reflexivity. Qed.

Lemma no_start_transcript_part (head t : string) :
  no_start_in INST_END head = true -> no_bracket t = true ->
  no_start_in INST_END (head ++ t ++ nl ++ "---" ++ nl) = true.
Proof.
  intros Hh Ht. apply no_start_in_app; [exact Hh |].
  apply no_start_in_app; [exact (no_bracket_no_start t Ht) | reflexivity].
Qed.

Ltac no_start_piece :=
  first [ apply no_bracket_no_start; assumption | vm_compute; reflexivity ].

Ltac no_start_chain :=
  repeat (apply no_start_in_app; [no_start_piece |]); no_start_piece.

Ltac echo_field shape :=
  erewrite generate_core_echo_marker;
  [ | apply shape | apply no_start_transcript_part; [vm_compute; reflexivity | assumption]];
  rewrite ?str_app_assoc, ?py_strip_nl.

(** X1: with a pipeline that echoes the prompt and a transcript without
    ['['], each insight is the stripped continuation the model sampled,
    except the sentiment, which keeps the prompt's trailing
    ["Sentiment and Justification:"] label in front of it; no error is
    reported. *)
Theorem insights_echo_fields (g : string -> Z -> string) (t : string) :
  no_bracket t = true ->
  process_transcript_insights (Some (insights_generator (echo_pipeline g))) t =
  [("summary", py_strip (g (prompt_summary t) 350));
   ("decisions", py_strip (g (prompt_decisions t) 250));
   ("actions", py_strip (g (prompt_actions t) 300));
   ("sentiment", py_strip ("Sentiment and Justification:" ++ g (prompt_sentiment t) 100));
   ("error", "")].
Proof.
  intros Ht. unfold process_transcript_insights, insight_step, insights_generator,
    generate_text_from_prompt.
  echo_field prompt_summary_shape.
  echo_field prompt_decisions_shape.
  echo_field prompt_actions_shape.
  echo_field prompt_sentiment_shape.
  reflexivity.
Qed.

Lemma insights_echo_fields_witness :
  no_bracket "Alice: ship v2 on Friday." = true /\
  process_transcript_insights (Some (insights_generator (echo_pipeline (fun _ _ => " Done. "))))
    "Alice: ship v2 on Friday." =
  [("summary", "Done."); ("decisions", "Done."); ("actions", "Done.");
   ("sentiment", "Sentiment and Justification: Done."); ("error", "")].
Proof.
  split; [reflexivity |].
  rewrite (insights_echo_fields (fun _ _ => " Done. ") "Alice: ship v2 on Friday." eq_refl).
  vm_compute. reflexivity.
Defined.

Lemma list_ascii_of_string_app (a b : string) :
  list_ascii_of_string (a ++ b) = app (list_ascii_of_string a) (list_ascii_of_string b).
Proof. induction a as [| c a IH]; simpl; [reflexivity | now rewrite IH]. Qed.

Lemma string_of_list_ascii_app (a b : list ascii) :
  string_of_list_ascii (app a b) = string_of_list_ascii a ++ string_of_list_ascii b.
Proof. induction a as [| c a IH]; simpl; [reflexivity | now rewrite IH]. Qed.

Lemma lstrip_list_app_nonspace (x m : list ascii) (c : ascii) :
  py_isspace c = false -> exists y, lstrip_list (app x (c :: m)) = app y (c :: m).
Proof.
  intros Hc. induction x as [| d x IH].
  - exists []. simpl. now rewrite Hc.
  - simpl. destruct (py_isspace d); [exact IH | now exists (d :: x)].
Qed.

(** [strip()] never removes anything from a head that begins and ends
    with a non-space character. *)
Lemma py_strip_keeps_head (h g : string) (c0 cl : ascii) (hm hm' : list ascii) :
  list_ascii_of_string h = c0 :: hm -> rev (list_ascii_of_string h) = cl :: hm' ->
  py_isspace c0 = false -> py_isspace cl = false ->
  exists s, py_strip (h ++ g) = h ++ s.
Proof.
  intros H0 Hl Hc0 Hcl. unfold py_strip.
  rewrite list_ascii_of_string_app.
  assert (Hs : lstrip_list (app (list_ascii_of_string h) (list_ascii_of_string g))
               = app (list_ascii_of_string h) (list_ascii_of_string g)).
  { rewrite H0. simpl. now rewrite Hc0. }
  rewrite Hs, rev_app_distr, Hl.
  destruct (lstrip_list_app_nonspace (rev (list_ascii_of_string g)) hm' cl Hcl) as [y ->].
  exists (string_of_list_ascii (rev y)).
  rewrite rev_app_distr, <- Hl, rev_involutive, string_of_list_ascii_app,
    string_of_list_ascii_of_string.
  reflexivity.
Qed.

(** X2: with a pipeline that echoes the prompt and a transcript without
    ['['], the sentiment the insights service returns always begins with
    the prompt's label ["Sentiment and Justification:"], whatever the
    model generates. *)
Theorem insights_echo_sentiment_label (g : string -> Z -> string) (t : string) :
  no_bracket t = true ->
  exists rest,
    dict_lookup "sentiment"
      (process_transcript_insights (Some (insights_generator (echo_pipeline g))) t)
    = Some ("Sentiment and Justification:" ++ rest).
Proof.
  intros Ht. unfold process_transcript_insights, insight_step, insights_generator,
    generate_text_from_prompt.
  echo_field prompt_summary_shape.
  echo_field prompt_decisions_shape.
  echo_field prompt_actions_shape.
  echo_field prompt_sentiment_shape.
  destruct (py_strip_keeps_head "Sentiment and Justification:" (g (prompt_sentiment t) 100)
              "S"%char ":"%char _ _ eq_refl eq_refl eq_refl eq_refl) as [rest Hr].
  exists rest. rewrite Hr. reflexivity.
Qed.

Lemma insights_echo_sentiment_label_witness :
  no_bracket "Bob: costs are up." = true /\
  exists rest,
    dict_lookup "sentiment"
      (process_transcript_insights (Some (insights_generator (echo_pipeline (fun _ _ => nl))))
         "Bob: costs are up.")
    = Some ("Sentiment and Justification:" ++ rest).
Proof.
  split; [reflexivity |].
  exact (insights_echo_sentiment_label (fun _ _ => nl) "Bob: costs are up." eq_refl).
Defined.



(* ------------------------------------------------------------------ *)
(** ** Outputs the generation code rejects *)




(* ------------------------------------------------------------------ *)
(** ** [split] and [find] *)






(* ------------------------------------------------------------------ *)
(** ** The Q&A processor *)

Lemma qna_prompt_shape (t q : string) :
  qna_prompt t q =
  (prompt_head (fun x => qna_prompt x "") 39 ++ t ++ nl ++ "---" ++ nl ++ nl
   ++ "User's Question: " ++ q ++ nl) ++ INST_END ++ nl ++ "Answer:".
Proof. rewrite !str_app_assoc. reflexivity. Qed.

(** X6: with a pipeline that echoes the prompt, and a transcript and a
    question without ['['], the Q&A processor reports no error and its
    answer is the stripped continuation behind the prompt's trailing
    ["Answer:"] label, which it keeps. *)
Theorem qna_echo_answer (g : string -> Z -> string) (t q : string) :
  no_bracket t = true -> no_bracket q = true ->
  answer_question_on_transcript (Some (qna_generator (echo_pipeline g))) t q
  = [("answer", py_strip ("Answer:" ++ g (qna_prompt t q) 200)); ("error", "")]
  /\ exists rest, py_strip ("Answer:" ++ g (qna_prompt t q) 200) = "Answer:" ++ rest.
Proof.
  intros Ht Hq. split.
  - unfold answer_question_on_transcript, qna_generator, generate_text_from_prompt.
    erewrite generate_core_echo_marker; [| apply qna_prompt_shape |].
    + rewrite !str_app_assoc, py_strip_nl. reflexivity.
    + no_start_chain.
  - exact (py_strip_keeps_head "Answer:" _ "A"%char ":"%char _ _
             eq_refl eq_refl eq_refl eq_refl).
Qed.

Lemma qna_echo_answer_witness :
  no_bracket "Alice: budget approved." = true /\ no_bracket "Was the budget approved?" = true /\
  answer_question_on_transcript (Some (qna_generator (echo_pipeline (fun _ _ => " Yes. "))))
    "Alice: budget approved." "Was the budget approved?"
  = [("answer", "Answer: Yes."); ("error", "")].
Proof.
  split; [reflexivity |]. split; [reflexivity |].
  destruct (qna_echo_answer (fun _ _ => " Yes. ") "Alice: budget approved."
              "Was the budget approved?" eq_refl eq_refl) as [H _].
  rewrite H. vm_compute. reflexivity.
Defined.

(** X7: the Q&A processor always returns exactly the keys answer and
    error, and its error is empty exactly when the model is loaded and the
    generation returned. *)
Theorem qna_answer_keys_and_error (text_generator : option generator) (t q : string) :
  let r := answer_question_on_transcript text_generator t q in
  map fst r = ["answer"; "error"]
  /\ (dict_get r "error" "" = "" <->
      exists gen a, text_generator = Some gen /\ gen (qna_prompt t q) 200 = ok a).
Proof.
  intros r. subst r. unfold answer_question_on_transcript.
  destruct text_generator as [gen |].
  - destruct (gen (qna_prompt t q) 200) as [e | a] eqn:Hg; simpl.
    + split; [reflexivity |]. split; [discriminate |].
      intros (gen' & a & Heq & Ha). injection Heq as <-. rewrite Hg in Ha. discriminate Ha.
    + split; [reflexivity |]. split; [intros _; now exists gen, a | reflexivity].
  - simpl. split; [reflexivity |]. split; [discriminate |].
    intros (gen' & a & Heq & _). discriminate.
Qed.



(* ------------------------------------------------------------------ *)
(** ** The endpoints' validation and responses *)

Lemma invalid_text_spec (v : json) :
  invalid_text v = true <-> match v with JStr s => is_blank s = true | _ => True end.
Proof.
  unfold invalid_text. destruct v as [| b | z | s | l | f];
    try (rewrite orb_true_r; tauto).
  cbn [py_truthy]. rewrite negb_involutive.
  destruct (String.eqb_spec s "") as [-> | Hne]; [split; reflexivity |].
  simpl. tauto.
Qed.

Lemma text_field_invalid_spec (request_data : list (string * json)) (k : string) :
  invalid_text (dict_get request_data k JNull) = true <-> text_field_invalid request_data k.
Proof. apply invalid_text_spec. Qed.

(** X9: [get_insights] answers 400 [{"error": "Invalid transcript"}]
    exactly when the transcript field is missing, not a string or blank,
    whatever the remote processor does. *)
Theorem get_insights_rejects_exactly_invalid (remote : remote_call string)
  (request_data : list (string * json)) :
  get_insights remote request_data = mkJSONResponse 400 (JObj [("error", JStr "Invalid transcript")])
  <-> text_field_invalid request_data "transcript".
Proof.
  rewrite <- text_field_invalid_spec. unfold get_insights.
  destruct (invalid_text _); [split; reflexivity |]. split; [| discriminate].
  destruct (remote_result _) as [e | [| b | z | s | l | f]]; discriminate.
Qed.

(** X10: [ask_question] answers 400 [{"error": "Invalid transcript/question"}]
    exactly when the transcript or the question is missing, not a string
    or blank. *)
Theorem ask_question_rejects_exactly_invalid (remote : remote_call (string * string))
  (request_data : list (string * json)) :
  ask_question remote request_data
  = mkJSONResponse 400 (JObj [("error", JStr "Invalid transcript/question")])
  <-> text_field_invalid request_data "transcript" \/ text_field_invalid request_data "question".
Proof.
  rewrite <- !text_field_invalid_spec, <- orb_true_iff. unfold ask_question.
  destruct (_ || _); [split; reflexivity |]. split; [| discriminate].
  destruct (remote_result _) as [e | [| b | z | s | l | f]]; discriminate.
Qed.

(** X11: every answer of [get_insights] is either a 200 carrying the dict
    the remote processor returned for some transcript, or a 400 or 500
    whose content is a single [{"error": msg}]. *)
Theorem get_insights_response_forms (remote : remote_call string)
  (request_data : list (string * json)) :
  let r := get_insights remote request_data in
  (jr_status r = 200 /\ exists t f, remote_result (remote t) = ok (JObj f) /\ jr_content r = JObj f)
  \/ ((jr_status r = 400 \/ jr_status r = 500) /\ exists msg, jr_content r = JObj [("error", JStr msg)]).
Proof.
  intros r. subst r. unfold get_insights.
  destruct (invalid_text _); [right; split; [now left | now eexists] |].
  match goal with |- context [remote_result (remote ?t)] =>
    destruct (remote_result (remote t)) as [e | [| b | z | s | l | f]] eqn:Hr end;
    try (right; split; [now right | now eexists]).
  left. split; [reflexivity |]. eexists _, f. split; [exact Hr | reflexivity].
Qed.

(* ------------------------------------------------------------------ *)
(** ** Clients and services together *)

Lemma invalid_text_str (s : string) : is_blank s = false -> invalid_text (JStr s) = false.
Proof.
  intros H. destruct (invalid_text (JStr s)) eqn:Hi; [| reflexivity].
  apply invalid_text_spec in Hi. congruence.
Qed.

Lemma modal_remote_result {A} (awaitable : bool) (method : A -> list (string * string)) (x : A) :
  remote_result (modal_remote awaitable method x) = ok (dict_to_json (method x)).
Proof. destruct awaitable; reflexivity. Qed.

Lemma insights_service_answers (awaitable : bool) (text_generator : option generator)
  (body_text : string) (cfg : config) (t : string) :
  is_blank t = false ->
  insights_service awaitable text_generator body_text (insights_request cfg t)
  = Responded (mkResponse 200 "OK" (MODAL_INSIGHTS_ENDPOINT_URL cfg) body_text
                 (Decodes (dict_to_json (process_transcript_insights text_generator t)))).
Proof.
  intros Ht. unfold insights_service, endpoint_server, insights_request, get_insights.
  cbn [req_json req_url].
  change (dict_get [("transcript", JStr t)] "transcript" JNull) with (JStr t).
  rewrite (invalid_text_str t Ht), modal_remote_result. reflexivity.
Qed.


Lemma insights_client_over_service (cfg : config) (t : string) (awaitable : bool)
  (text_generator : option generator) (body_text : string) :
  endpoint_misconfigured (MODAL_INSIGHTS_ENDPOINT_URL cfg) INSIGHTS_PLACEHOLDER = false ->
  is_blank t = false ->
  output (insights_service awaitable text_generator body_text) (get_all_insights_from_modal cfg t)
  = match insights_from_response
            (mkResponse 200 "OK" (MODAL_INSIGHTS_ENDPOINT_URL cfg) body_text
               (Decodes (dict_to_json (process_transcript_insights text_generator t)))) with
    | inl e => insights_error_tuple e
    | inr l => l
    end.
Proof.
  intros Hcfg Ht. unfold output.
  rewrite (insights_network_path _ _ _ _ Hcfg Ht), insights_service_answers by exact Ht.
  reflexivity.
Qed.

(** X12: end to end, when the model is loaded and all four generations
    return, the insights client shows exactly the four generated texts. *)
Theorem insights_end_to_end_success (cfg : config) (t : string) (awaitable : bool)
  (gen : generator) (body_text s d a m : string) :
  endpoint_misconfigured (MODAL_INSIGHTS_ENDPOINT_URL cfg) INSIGHTS_PLACEHOLDER = false ->
  is_blank t = false ->
  gen (prompt_summary t) 350 = ok s -> gen (prompt_decisions t) 250 = ok d ->
  gen (prompt_actions t) 300 = ok a -> gen (prompt_sentiment t) 100 = ok m ->
  output (insights_service awaitable (Some gen) body_text) (get_all_insights_from_modal cfg t)
  = [JStr s; JStr d; JStr a; JStr m].
Proof.
  intros Hcfg Ht Hs Hd Ha Hm.
  rewrite (insights_client_over_service _ _ _ _ _ Hcfg Ht).
  unfold process_transcript_insights, insight_step. rewrite Hs, Hd, Ha, Hm. reflexivity.
Qed.

Lemma insights_end_to_end_success_witness :
  output (insights_service true (Some (fun _ _ => ok "x")) "{}")
    (get_all_insights_from_modal app_config "Standup notes")
  = [JStr "x"; JStr "x"; JStr "x"; JStr "x"].
Proof. apply insights_end_to_end_success; reflexivity. Defined.

(** X13: end to end, when the model is loaded but any of the four
    generations raises, the insights client shows only the service's
    joined error text and three empty strings: the insights that were
    generated are dropped. *)
Theorem insights_end_to_end_partial_failure (cfg : config) (t : string) (awaitable : bool)
  (gen : generator) (body_text : string) :
  endpoint_misconfigured (MODAL_INSIGHTS_ENDPOINT_URL cfg) INSIGHTS_PLACEHOLDER = false ->
  is_blank t = false ->
  raised (gen (prompt_summary t) 350) || raised (gen (prompt_decisions t) 250)
  || raised (gen (prompt_actions t) 300) || raised (gen (prompt_sentiment t) 100) = true ->
  output (insights_service awaitable (Some gen) body_text) (get_all_insights_from_modal cfg t)
  = [JStr ("AI Service Error (Insights): "
           ++ dict_get (process_transcript_insights (Some gen) t) "error" "");
     JStr ""; JStr ""; JStr ""].
Proof.
  intros Hcfg Ht Hr.
  rewrite (insights_client_over_service _ _ _ _ _ Hcfg Ht).
  unfold process_transcript_insights, insight_step.
  destruct (gen (prompt_summary t) 350);
    destruct (gen (prompt_decisions t) 250);
    destruct (gen (prompt_actions t) 300);
    destruct (gen (prompt_sentiment t) 100);
    try discriminate Hr; reflexivity.
Qed.

Lemma insights_end_to_end_partial_failure_witness :
  output (insights_service false
            (Some (fun p _ => if String.prefix "<s>[INST]Analyze" p
                              then raise (OtherError "RuntimeError" "CUDA out of memory")
                              else ok "fine"))
            "{}")
    (get_all_insights_from_modal app_config "Standup notes")
  = [JStr "AI Service Error (Insights): Sentiment: CUDA out of memory";
     JStr ""; JStr ""; JStr ""].
Proof. apply insights_end_to_end_partial_failure; reflexivity. Defined.





(* ------------------------------------------------------------------ *)
(** ** The v6.4 processor and endpoint of [modal_logic.py] *)

Lemma process_v64_keys (text_generator : option generator) (t : string) :
  map fst (process_transcript_insights_v64 text_generator t)
  = ["summary"; "decisions"; "actions"; "error"].
Proof.
  unfold process_transcript_insights_v64, v64_step.
  destruct text_generator as [gen |]; [| reflexivity].
  destruct (gen (v64_summary_prompt t) 350);
    destruct (gen (v64_decisions_prompt t) 250);
    destruct (gen (v64_actions_prompt t) 300); reflexivity.
Qed.

(** X16: the v6.4 processor always returns exactly the keys summary,
    decisions, actions and error, and its error is empty exactly when the
    model is loaded and all three generations return. *)
Theorem v64_insights_keys_and_error (text_generator : option generator) (t : string) :
  let r := process_transcript_insights_v64 text_generator t in
  map fst r = ["summary"; "decisions"; "actions"; "error"]
  /\ (dict_get r "error" "" = "" <->
      exists gen s d a, text_generator = Some gen
        /\ gen (v64_summary_prompt t) 350 = ok s
        /\ gen (v64_decisions_prompt t) 250 = ok d
        /\ gen (v64_actions_prompt t) 300 = ok a).
Proof.
  intros r. subst r. split; [apply process_v64_keys |].
  unfold process_transcript_insights_v64, v64_step.
  destruct text_generator as [gen |].
  - destruct (gen (v64_summary_prompt t) 350) as [e1 | s] eqn:E1;
      destruct (gen (v64_decisions_prompt t) 250) as [e2 | d] eqn:E2;
      destruct (gen (v64_actions_prompt t) 300) as [e3 | a] eqn:E3;
      (split;
       [ try discriminate; intros _; now exists gen, s, d, a
       | intros (gen' & s' & d' & a' & Heq & Hs & Hd & Ha); injection Heq as <-;
         rewrite ?E1 in Hs; rewrite ?E2 in Hd; rewrite ?E3 in Ha;
         try discriminate Hs; try discriminate Hd; try discriminate Ha; reflexivity ]).
  - split; [discriminate |]. intros (gen' & s & d & a & Heq & _). discriminate.
Qed.


(** X18: every answer of the v6.4 endpoint is either a 200 carrying the
    dict the remote processor returned for some transcript, or a 400 or
    500 whose content is the four-key error dict with empty summary,
    decisions and actions. *)
Theorem v64_endpoint_response_forms (remote : remote_call string)
  (request_data : list (string * json)) :
  let r := process_meeting_insights_endpoint remote request_data in
  (jr_status r = 200 /\ exists t f,
     (remote t = ok (Awaitable (ok (JObj f))) \/ remote t = ok (AlreadyDict (JObj f)))
     /\ jr_content r = JObj f)
  \/ ((jr_status r = 400 \/ jr_status r = 500) /\ exists msg, jr_content r = v64_error_content msg).
Proof.
  intros r. subst r. unfold process_meeting_insights_endpoint.
  destruct (invalid_text _); [right; split; [now left | now eexists] |].
  destruct (remote _) as [e | [[e | v] | v | ty]] eqn:Hr.
  - right. unfold v64_handler. destruct e; (split; [now right | now eexists]).
  - right. unfold v64_handler. destruct e; (split; [now right | now eexists]).
  - unfold v64_finish. destruct v as [| b | z | s | l | f];
      try (right; split; [now right | now eexists]).
    left. split; [reflexivity |]. eexists _, f. split; [left; exact Hr | reflexivity].
  - unfold v64_finish. destruct v as [| b | z | s | l | f];
      try (right; split; [now right | now eexists]).
    left. split; [reflexivity |]. eexists _, f. split; [right; exact Hr | reflexivity].
  - right. split; [now right | now eexists].
Qed.

(** X19: the v6.4 endpoint answers its 400 exactly when the transcript
    field is missing, not a string or blank, whatever the remote does. *)
Theorem v64_endpoint_rejects_exactly_invalid (remote : remote_call string)
  (request_data : list (string * json)) :
  process_meeting_insights_endpoint remote request_data
  = mkJSONResponse 400 (v64_error_content
      "Invalid request: 'transcript' field missing, not a string, or empty.")
  <-> text_field_invalid request_data "transcript".
Proof.
  rewrite <- text_field_invalid_spec. unfold process_meeting_insights_endpoint.
  destruct (invalid_text _); [split; reflexivity |]. split; [| discriminate].
  unfold v64_handler, v64_finish.
  match goal with |- context [remote ?t] => destruct (remote t) as [e | [[e | v] | v | ty]] end;
    try destruct e; try destruct v; discriminate.
Qed.

Lemma v64_summary_prompt_shape (t : string) :
  v64_summary_prompt t = (prompt_head v64_summary_prompt 12 ++ t ++ nl ++ "---" ++ nl) ++ INST_END ++ "".
Proof. rewrite !str_app_assoc. reflexivity. Qed.

Lemma v64_decisions_prompt_shape (t : string) :
  v64_decisions_prompt t = (prompt_head v64_decisions_prompt 12 ++ t ++ nl ++ "---" ++ nl) ++ INST_END ++ "".
Proof. rewrite !str_app_assoc. reflexivity. Qed.

Lemma v64_actions_prompt_shape (t : string) :
  v64_actions_prompt t = (prompt_head v64_actions_prompt 12 ++ t ++ nl ++ "---" ++ nl) ++ INST_END ++ "".
Proof. rewrite !str_app_assoc. reflexivity. Qed.

(** X20: with a pipeline that echoes the prompt and a transcript without
    ['['], the v6.4 processor returns the three stripped continuations and
    an empty error. *)
Theorem v64_echo_fields (g : string -> Z -> string) (t : string) :
  no_bracket t = true ->
  process_transcript_insights_v64 (Some (generate_text_v64 (Some (echo_pipeline g)))) t =
  [("summary", py_strip (g (v64_summary_prompt t) 350));
   ("decisions", py_strip (g (v64_decisions_prompt t) 250));
   ("actions", py_strip (g (v64_actions_prompt t) 300));
   ("error", "")].
Proof.
  intros Ht. unfold process_transcript_insights_v64, v64_step, generate_text_v64.
  echo_field v64_summary_prompt_shape.
  echo_field v64_decisions_prompt_shape.
  echo_field v64_actions_prompt_shape.
  reflexivity.
Qed.

Lemma v64_echo_fields_witness :
  no_bracket "Carol: hire two engineers." = true /\
  process_transcript_insights_v64 (Some (generate_text_v64 (Some (echo_pipeline (fun _ _ => nl ++ "- Hire two engineers")))))
    "Carol: hire two engineers."
  = [("summary", "- Hire two engineers"); ("decisions", "- Hire two engineers");
     ("actions", "- Hire two engineers"); ("error", "")].
Proof.
  split; [reflexivity |].
  rewrite (v64_echo_fields (fun _ _ => nl ++ "- Hire two engineers") "Carol: hire two engineers." eq_refl).
  vm_compute. reflexivity.
Defined.



(* ------------------------------------------------------------------ *)
(** ** Service failures as the clients show them *)




